(** * stytra: frame acquisition and dispatch ([stytra/hardware/cameras.py])

    A shallow embedding of the two workers of the camera pipeline,
    [XimeaCamera.run] (the frame source) and [FrameDispatcher.run] (the
    dispatcher), together with the properties of the pipeline that its
    design document states.

    Conventions of the embedding.
    - Python integers are [Z]; [%] with a positive right operand is
      [Z.modulo].
    - Python floats are IEEE-754 doubles: values of [spec_float] with the
      operations of [SpecFloat] at precision 53, every operation rounding
      to nearest, ties to even.  A number that may be an [int] or a
      [float] is a [py_num]; the arithmetic operators convert and raise as
      Python's do.
    - A [dict] is a [gmap string py_num]; a queue is the list of its
      contents, oldest first ([put] appends, [get] takes the head).
    - Exceptions are values of [py_exn]; a statement that may raise
      returns an [outcome]. *)

From Stdlib Require Import ZArith QArith Qround Qminmax Qabs Lia Lqa SpecFloat.
From stdpp Require Import base option list strings gmap.

Local Open Scope Z_scope.

(** ** Python numerics *)

(** *** Doubles *)
Module Binary64.

Definition prec : Z := 53.
Definition emax : Z := 1024.

(** An integer as a float that has not been rounded yet. *)
Definition exact (n : Z) : spec_float :=
  match n with
  | Z0 => S754_zero false
  | Zpos p => S754_finite false p 0
  | Zneg p => S754_finite true p 0
  end.

(** The double nearest to an integer; an infinity when the integer is
    beyond the largest double. *)
Definition of_Z (n : Z) : spec_float :=
  match n with
  | Z0 => S754_zero false
  | Zpos p => binary_normalize prec emax (Zpos p) 0 false
  | Zneg p => SFopp (binary_normalize prec emax (Zpos p) 0 false)
  end.

Definition div (x y : spec_float) : spec_float := SFdiv prec emax x y.
Definition mul (x y : spec_float) : spec_float := SFmul prec emax x y.

(** The quotient of two integers, rounded once. *)
Definition int_div (a b : Z) : spec_float := SFdiv prec emax (exact a) (exact b).

Definition is_zero (x : spec_float) : bool :=
  match x with
  | S754_zero _ => true
  | _ => false
  end.

Definition is_finite (x : spec_float) : bool :=
  match x with
  | S754_zero _ | S754_finite _ _ _ => true
  | _ => false
  end.

(** The number a finite double stands for. *)
Definition to_Q (x : spec_float) : Q :=
  match x with
  | S754_finite s m e =>
      let n := if s then Zneg m else Zpos m in
      match e with
      | Zneg p => n # (2 ^ p)
      | _ => inject_Z (n * 2 ^ e)
      end
  | _ => 0
  end.

(** The integer part of a finite double, toward zero. *)
Definition truncate (x : spec_float) : Z :=
  match x with
  | S754_finite s m e =>
      let a := match e with
               | Zneg p => Z.shiftr (Zpos m) (Zpos p)
               | _ => Z.shiftl (Zpos m) e
               end in
      if s then - a else a
  | _ => 0
  end.

(** A decimal literal [n / d] read as a double. *)
Definition literal (n d : Z) : spec_float := int_div n d.

End Binary64.

(** *** Exceptions *)

Inductive py_exn : Type :=
| Empty               (* queue.Empty *)
| AttributeError
| ZeroDivisionError
| OverflowError
| ValueError
| OtherError.         (* anything else an injected function may raise *)

Inductive outcome (A : Type) : Type :=
| Ok (a : A)
| Raise (e : py_exn).
Arguments Ok {A} a.
Arguments Raise {A} e.

Definition and_then {A B : Type} (o : outcome A) (k : A -> outcome B) : outcome B :=
  match o with
  | Ok a => k a
  | Raise e => Raise e
  end.

(** *** Numbers and their operators *)

(** A number: an [int] or a [float]. *)
Inductive py_num : Type :=
| PyInt (n : Z)
| PyFloat (x : spec_float).

(** An operand of a float operation: an [int] is converted, and one too
    large for a double raises. *)
Definition py_float (v : py_num) : outcome spec_float :=
  match v with
  | PyFloat x => Ok x
  | PyInt n =>
      match Binary64.of_Z n with
      | S754_infinity _ => Raise OverflowError
      | x => Ok x
      end
  end.

(** [a / b]. *)
Definition py_truediv (a b : py_num) : outcome spec_float :=
  match a, b with
  | PyInt m, PyInt n =>
      if n =? 0 then Raise ZeroDivisionError
      else match Binary64.int_div m n with
           | S754_infinity _ => Raise OverflowError
           | x => Ok x
           end
  | _, _ =>
      and_then (py_float a) (fun x =>
      and_then (py_float b) (fun y =>
      if Binary64.is_zero y then Raise ZeroDivisionError else Ok (Binary64.div x y)))
  end.

(** [a * b]. *)
Definition py_mul (a b : py_num) : outcome py_num :=
  match a, b with
  | PyInt m, PyInt n => Ok (PyInt (m * n))
  | _, _ =>
      and_then (py_float a) (fun x =>
      and_then (py_float b) (fun y => Ok (PyFloat (Binary64.mul x y))))
  end.

(** [int(v)]: a float is truncated toward zero; an infinity and a NaN
    raise. *)
Definition py_int (v : py_num) : outcome Z :=
  match v with
  | PyInt n => Ok n
  | PyFloat (S754_infinity _) => Raise OverflowError
  | PyFloat S754_nan => Raise ValueError
  | PyFloat x => Ok (Binary64.truncate x)
  end.


(** The value of a number that is not an infinity or a NaN. *)
Definition py_value (v : py_num) : Q :=
  match v with
  | PyInt n => inject_Z n
  | PyFloat x => Binary64.to_Q x
  end.

(** [timedelta.total_seconds()], the time difference being held in
    microseconds as [datetime] does: the division of two integers. *)
Definition total_seconds (microseconds : Z) : spec_float :=
  Binary64.int_div microseconds 1000000.

(** Line 71: [every_x = max(int(current_framerate/self.gui_framerate), 1)]. *)
Definition stride_of (current_framerate gui_framerate : py_num) : outcome Z :=
  and_then (py_truediv current_framerate gui_framerate) (fun x =>
  and_then (py_int (PyFloat x)) (fun k => Ok (Z.max k 1))).

(** Line 28: [int(control_params['exposure']*1000)]. *)
Definition exposure_units (v : py_num) : outcome Z :=
  and_then (py_mul v (PyInt 1000)) py_int.

Arguments py_truediv : simpl never.
Arguments py_mul : simpl never.
Arguments py_int : simpl never.
Arguments total_seconds : simpl never.
Arguments stride_of : simpl never.
Arguments exposure_units : simpl never.

(** *** The numbers of the design document *)

(** The integer part of a rational, toward zero. *)
Definition Qtruncate (x : Q) : Z := Z.quot (Qnum x) (Z.pos (Qden x)).

(** [round(x)] as Python defines it (round half to even).  The code never
    calls it; it is the rounding the design document names for the
    decimation stride, kept here to compare the code against. *)
Definition spec_round (x : Q) : Z :=
  let f := Qfloor x in
  match Qcompare (x - inject_Z f) (1 # 2) with
  | Lt => f
  | Gt => f + 1
  | Eq => if Z.even f then f else f + 1
  end.

(** The stride as the design document words it:
    [max(1, round(measured_rate / target_display_rate))]. *)
Definition spec_stride (measured_rate target_display_rate : Q) : Z :=
  Z.max 1 (spec_round (measured_rate / target_display_rate)).

Section Pipeline.

Context {Frame Result : Type}.
(** [np.swapaxes(frame, 0, 1)] *)
Variable swapaxes : Frame -> Frame.
(** [datetime.now()]: the reading, in microseconds, returned by the
    k-th call made by the dispatcher process. *)
Variable now : nat -> Z.

(** *** FrameDispatcher *)

(** The attributes set by [__init__] (lines 49-54).  [frame_queue] is
    the input of the loop below.  [output_queue] and [gui_queue] hold
    what has been put on them. *)
Record FrameDispatcher : Type := {
  gui_queue : list Frame;
  self_i : Z;
  gui_framerate : py_num;
  processing_function : option (Frame -> outcome Result);
  output_queue : option (list Result)
}.

(** [FrameDispatcher(frame_queue, gui_queue, output_queue,
    processing_function, gui_framerate)] with both queues still empty. *)
Definition FrameDispatcher_init (has_output_queue : bool)
    (processing_function : option (Frame -> outcome Result))
    (gui_framerate : py_num) : FrameDispatcher :=
  {| gui_queue := [];
     self_i := 0;
     gui_framerate := gui_framerate;
     processing_function := processing_function;
     output_queue := if has_output_queue then Some [] else None |}.

(** The state of [run]: the object, the locals of lines 57-61, and what
    the process has done so far (clock reads, calls of the processing
    function in order, lines printed). *)
Record run_state : Type := {
  self : FrameDispatcher;
  previous_time : Z;
  i : Z;
  current_framerate : py_num;
  every_x : Z;
  clock_reads : nat;
  calls : list Frame;
  stdout : list string
}.

Definition n_fps_frames : Z := 10.

Definition with_self (f : FrameDispatcher -> FrameDispatcher) (s : run_state) : run_state :=
  {| self := f (self s); previous_time := previous_time s; i := i s;
     current_framerate := current_framerate s; every_x := every_x s;
     clock_reads := clock_reads s; calls := calls s; stdout := stdout s |}.

Definition set_gui_queue (v : list Frame) (d : FrameDispatcher) : FrameDispatcher :=
  {| gui_queue := v; self_i := self_i d; gui_framerate := gui_framerate d;
     processing_function := processing_function d; output_queue := output_queue d |}.

Definition set_self_i (v : Z) (d : FrameDispatcher) : FrameDispatcher :=
  {| gui_queue := gui_queue d; self_i := v; gui_framerate := gui_framerate d;
     processing_function := processing_function d; output_queue := output_queue d |}.

Definition set_output_queue (v : option (list Result)) (d : FrameDispatcher) : FrameDispatcher :=
  {| gui_queue := gui_queue d; self_i := self_i d; gui_framerate := gui_framerate d;
     processing_function := processing_function d; output_queue := v |}.

Definition set_previous_time (v : Z) (s : run_state) : run_state :=
  {| self := self s; previous_time := v; i := i s;
     current_framerate := current_framerate s; every_x := every_x s;
     clock_reads := clock_reads s; calls := calls s; stdout := stdout s |}.

Definition set_i (v : Z) (s : run_state) : run_state :=
  {| self := self s; previous_time := previous_time s; i := v;
     current_framerate := current_framerate s; every_x := every_x s;
     clock_reads := clock_reads s; calls := calls s; stdout := stdout s |}.

Definition set_current_framerate (v : py_num) (s : run_state) : run_state :=
  {| self := self s; previous_time := previous_time s; i := i s;
     current_framerate := v; every_x := every_x s;
     clock_reads := clock_reads s; calls := calls s; stdout := stdout s |}.

Definition set_every_x (v : Z) (s : run_state) : run_state :=
  {| self := self s; previous_time := previous_time s; i := i s;
     current_framerate := current_framerate s; every_x := v;
     clock_reads := clock_reads s; calls := calls s; stdout := stdout s |}.

Definition set_clock_reads (v : nat) (s : run_state) : run_state :=
  {| self := self s; previous_time := previous_time s; i := i s;
     current_framerate := current_framerate s; every_x := every_x s;
     clock_reads := v; calls := calls s; stdout := stdout s |}.

Definition set_calls (v : list Frame) (s : run_state) : run_state :=
  {| self := self s; previous_time := previous_time s; i := i s;
     current_framerate := current_framerate s; every_x := every_x s;
     clock_reads := clock_reads s; calls := v; stdout := stdout s |}.

Definition set_stdout (v : list string) (s : run_state) : run_state :=
  {| self := self s; previous_time := previous_time s; i := i s;
     current_framerate := current_framerate s; every_x := every_x s;
     clock_reads := clock_reads s; calls := calls s; stdout := v |}.

(** Statements of [run]: a state transformer that may raise.  The state
    at the point of the exception is kept. *)
Definition M (A : Type) : Type := run_state -> outcome A * run_state.

Definition ret {A} (a : A) : M A := fun s => (Ok a, s).
Definition bind {A B} (m : M A) (k : A -> M B) : M B :=
  fun s => match m s with
           | (Ok a, s') => k a s'
           | (Raise e, s') => (Raise e, s')
           end.
Definition get : M run_state := fun s => (Ok s, s).
Definition modify (f : run_state -> run_state) : M unit := fun s => (Ok tt, f s).
Definition lift {A} (o : outcome A) : M A := fun s => (o, s).

Declare Scope run_scope.
Delimit Scope run_scope with run.
Notation "x <- m ;; k" := (bind m (fun x => k))
  (at level 100, m at next level, k at level 200, right associativity) : run_scope.
Notation "m ;; k" := (bind m (fun _ => k))
  (at level 100, k at level 200, right associativity) : run_scope.
Local Open Scope run_scope.

(** [datetime.now()] *)
Definition datetime_now : M Z :=
  s <- get ;;
  modify (set_clock_reads (S (clock_reads s))) ;;
  ret (now (clock_reads s)).

(** Lines 65-66.  In [self.output_queue.put(self.processing_function(frame))]
    the attribute [put] is looked up before the argument is evaluated,
    so a missing queue raises before the function is called. *)
Definition process (frame : Frame) : M unit :=
  s <- get ;;
  match processing_function (self s) with
  | None => ret tt
  | Some f =>
      match output_queue (self s) with
      | None => lift (Raise AttributeError)
      | Some oq =>
          modify (set_calls (calls s ++ [frame])) ;;
          r <- lift (f frame) ;;
          modify (with_self (set_output_queue (Some (oq ++ [r]))))
      end
  end.

(** Lines 68-73. *)
Definition calculate_framerate : M unit :=
  s <- get ;;
  if i s =? n_fps_frames - 1 then
    current_time <- datetime_now ;;
    rate <- lift (py_truediv (PyInt n_fps_frames)
                             (PyFloat (total_seconds (current_time - previous_time s)))) ;;
    modify (set_current_framerate (PyFloat rate)) ;;
    s1 <- get ;;
    x <- lift (stride_of (current_framerate s1) (gui_framerate (self s1))) ;;
    modify (set_every_x x) ;;
    modify (set_previous_time current_time)
  else ret tt.

(** Line 74. *)
Definition advance_window : M unit :=
  modify (fun s => set_i ((i s + 1) mod n_fps_frames) s).

(** Lines 75-77. *)
Definition display (frame : Frame) : M unit :=
  s <- get ;;
  (if self_i (self s) =? 0
   then modify (with_self (fun d => set_gui_queue (gui_queue d ++ [swapaxes frame]) d))
   else ret tt) ;;
  modify (fun s => with_self (set_self_i ((self_i (self s) + 1) mod every_x s)) s).

(** The body of the [try] once a frame has been obtained (lines 65-77). *)
Definition body (frame : Frame) : M unit :=
  process frame ;;
  calculate_framerate ;;
  advance_window ;;
  display frame.

(** Lines 68-77: what follows the processing step. *)
Definition bookkeep (frame : Frame) : M unit :=
  calculate_framerate ;;
  advance_window ;;
  display frame.

(** The part of the state the display path depends on: everything but
    the processing function, its output queue and the record of calls. *)
Definition bookkeeping (s : run_state) :=
  (gui_queue (self s), self_i (self s), gui_framerate (self s),
   previous_time s, i s, current_framerate s, every_x s, clock_reads s, stdout s).

(** The clock reading held in [previous_time] is the latest one taken. *)
Definition clock_synced (s : run_state) : Prop :=
  clock_reads s <> 0%nat /\ previous_time s = now (pred (clock_reads s)).

(** How [run] ended: the [break] of line 80, or an exception that
    escaped the loop. *)
Inductive exit : Type :=
| EndOfStream
| Crashed (e : py_exn).

(** Lines 78-80. *)
Definition on_empty (s : run_state) : exit * run_state :=
  (EndOfStream, set_stdout (stdout s ++ ["empty_queue"%string]) s).

(** Lines 62-80.  [gets] lists what the successive calls
    [self.frame_queue.get(timeout=5)] deliver: [Some frame], or [None]
    when the wait expires.  Once the list is used up the queue stays
    empty, so the next call times out too.  [except Empty] guards the
    whole body of the [try]. *)
Fixpoint loop (gets : list (option Frame)) (s : run_state) : exit * run_state :=
  match gets with
  | Some frame :: rest =>
      match body frame s with
      | (Ok _, s') => loop rest s'
      | (Raise Empty, s') => on_empty s'
      | (Raise e, s') => (Crashed e, s')
      end
  | _ => on_empty s
  end.

(** Lines 57-61. *)
Definition enter (d : FrameDispatcher) : run_state :=
  {| self := d;
     previous_time := now 0;
     i := 0;
     current_framerate := PyInt 100;
     every_x := 10;
     clock_reads := 1;
     calls := [];
     stdout := [] |}.

Definition run (d : FrameDispatcher) (gets : list (option Frame)) : exit * run_state :=
  loop gets (enter d).

(** One completed iteration, as a relation. *)
Definition steps_to (s : run_state) (frame : Frame) (s' : run_state) : Prop :=
  body frame s = (Ok tt, s').

(** States the loop of a freshly constructed dispatcher can be in at
    the top of an iteration. *)
Inductive reachable : run_state -> Prop :=
| reachable_enter has_output_queue processing_function gui_framerate :
    reachable (enter (FrameDispatcher_init has_output_queue processing_function
                                           gui_framerate))
| reachable_step s frame s' :
    reachable s -> steps_to s frame s' -> reachable s'.

(** Running the body over consecutive frames, all iterations completing. *)
Fixpoint iterate (frames : list Frame) (s : run_state) : option run_state :=
  match frames with
  | [] => Some s
  | frame :: rest =>
      match body frame s with
      | (Ok _, s') => iterate rest s'
      | _ => None
      end
  end.

(** The stride in force before and after each of the iterations over
    [frames] started in [s]. *)
Fixpoint strides (frames : list Frame) (s : run_state) : list Z :=
  every_x s ::
  match frames with
  | [] => []
  | frame :: rest => strides rest (snd (body frame s))
  end.

(** *** XimeaCamera *)

(** What the camera handle holds: the two parameters the loop can set,
    and how many images have been read from the sensor. *)
Record Device : Type := {
  exposure : Z;
  gain : py_num;
  images_read : nat
}.

Definition set_exposure (v : Z) (dev : Device) : Device :=
  {| exposure := v; gain := gain dev; images_read := images_read dev |}.

Definition set_gain (v : py_num) (dev : Device) : Device :=
  {| exposure := exposure dev; gain := v; images_read := images_read dev |}.

Definition get_image (dev : Device) : Device :=
  {| exposure := exposure dev; gain := gain dev; images_read := S (images_read dev) |}.

(** The object: [self.q], [self.control_queue] (optional, line 24),
    [self.signal] (whether the event is set) and [self.cam]. *)
Record XimeaCamera : Type := {
  q : list Frame;
  control_queue : option (list (gmap string py_num));
  signal : bool;
  cam : Device
}.

Definition set_cam (dev : Device) (c : XimeaCamera) : XimeaCamera :=
  {| q := q c; control_queue := control_queue c; signal := signal c; cam := dev |}.

Definition set_control_queue (v : option (list (gmap string py_num))) (c : XimeaCamera)
    : XimeaCamera :=
  {| q := q c; control_queue := v; signal := signal c; cam := cam c |}.

(** Lines 29-30. *)
Definition apply_gain (control_params : gmap string py_num) (dev : Device) : Device :=
  match control_params !! "gain"%string with
  | Some g => set_gain g dev
  | None => dev
  end.

(** Lines 27-30: a dequeued [control_params] applied to the device.  The
    conversion of line 28 is evaluated before [set_exposure] is called, so
    when it raises the device has not been touched. *)
Definition apply_control (control_params : gmap string py_num) (dev : Device)
    : outcome Device :=
  match control_params !! "exposure"%string with
  | Some v =>
      and_then (exposure_units v) (fun n =>
      Ok (apply_gain control_params (set_exposure n dev)))
  | None => Ok (apply_gain control_params dev)
  end.

(** Lines 24-32: [get(timeout=0.0001)] takes the oldest entry of the
    queue; on an empty queue it raises [Empty], which is passed over.
    Another exception leaves the loop, the entry having been taken. *)
Definition poll_control (c : XimeaCamera) : outcome unit * XimeaCamera :=
  match control_queue c with
  | Some (control_params :: rest) =>
      let c1 := set_control_queue (Some rest) c in
      match apply_control control_params (cam c1) with
      | Ok dev => (Ok tt, set_cam dev c1)
      | Raise e => (Raise e, c1)
      end
  | _ => (Ok tt, c)
  end.

(** What the other processes and the sensor do during one iteration:
    the updates the controller puts on the control queue before the
    poll of line 26, whether it has set the termination event by the
    time line 33 tests it, and the image the sensor would deliver. *)
Record world : Type := {
  submitted : list (gmap string py_num);
  set_event : bool;
  image : Frame
}.

Definition receive (w : world) (c : XimeaCamera) : XimeaCamera :=
  {| q := q c;
     control_queue := option_map (fun l => l ++ submitted w) (control_queue c);
     signal := signal c || set_event w;
     cam := cam c |}.

(** Lines 35-37. *)
Definition capture (frame : Frame) (c : XimeaCamera) : XimeaCamera :=
  {| q := q c ++ [frame]; control_queue := control_queue c; signal := signal c;
     cam := get_image (cam c) |}.

(** Where the loop stands: it goes round again, it has left through the
    [break] of line 34, or an exception has left it. *)
Inductive flow : Type :=
| Continues
| Breaks
| Raises (e : py_exn).

(** One pass through lines 23-37. *)
Definition camera_iteration (w : world) (c : XimeaCamera) : flow * XimeaCamera :=
  match poll_control (receive w c) with
  | (Ok _, c1) => if signal c1 then (Breaks, c1) else (Continues, capture (image w) c1)
  | (Raise e, c1) => (Raises e, c1)
  end.

(** Lines 22-37 against a finite history of the surroundings;
    [Continues] when the loop is still running at the end of the
    history. *)
Fixpoint camera_loop (ws : list world) (c : XimeaCamera) : flow * XimeaCamera :=
  match ws with
  | [] => (Continues, c)
  | w :: rest =>
      match camera_iteration w c with
      | (Continues, c') => camera_loop rest c'
      | stopped => stopped
      end
  end.

(** Lines 17-21: the device is opened with the gain it powers up with,
    and the exposure is set to 1000. *)
Definition camera_start (frame_queue : list Frame)
    (control_queue : option (list (gmap string py_num))) (power_on_gain : py_num)
    : XimeaCamera :=
  {| q := frame_queue; control_queue := control_queue; signal := false;
     cam := set_exposure 1000 {| exposure := 0; gain := power_on_gain; images_read := 0 |} |}.


(** The updates of a list applied one after the other, oldest first. *)
Fixpoint apply_all (updates : list (gmap string py_num)) (dev : Device) : outcome Device :=
  match updates with
  | [] => Ok dev
  | u :: rest => and_then (apply_control u dev) (apply_all rest)
  end.

(** The control channel as the design document words it: a single slot
    in which a newer update supersedes an older unconsumed one, so that
    of the updates submitted before a poll only the most recent one is
    applied. *)
Definition spec_poll_last_write_wins (pending : list (gmap string py_num)) (dev : Device)
    : outcome Device :=
  match last pending with
  | Some u => apply_control u dev
  | None => Ok dev
  end.

End Pipeline.

(** Lines 70-71 on the microseconds elapsed since the previous window
    boundary: whether both statements return, that is, neither division
    raises and [int] is given a finite number. *)
Definition refresh_returns (gui_framerate : py_num) (elapsed : Z) : bool :=
  match py_truediv (PyInt n_fps_frames) (PyFloat (total_seconds elapsed)) with
  | Ok rate =>
      match stride_of (PyFloat rate) gui_framerate with
      | Ok _ => true
      | Raise _ => false
      end
  | Raise _ => false
  end.

(** ** A concrete pipeline

    Frames are numbered in capture order; the flag records whether the
    axes have been swapped. *)

Definition ex_frame (n : nat) : nat * bool := (n, false).

Definition ex_swapaxes (frame : nat * bool) : nat * bool := (fst frame, negb (snd frame)).

(** Frames 1 to [k]. *)
Definition ex_frames (k : nat) : list (nat * bool) := map ex_frame (seq 1 k).

(** A processing function that returns, and one that raises. *)
Definition ex_double (frame : nat * bool) : outcome nat := Ok (2 * fst frame)%nat.
Definition ex_failing (frame : nat * bool) : outcome nat := Raise OtherError.

(** Clocks: ten frames every 0.2 s (50 frames/s), and ten frames every
    33333 microseconds (a little over 300 frames/s). *)
Definition clock_50fps (k : nat) : Z := Z.of_nat k * 200000.
Definition clock_300fps (k : nat) : Z := Z.of_nat k * 33333.

(** Dispatchers with a target display rate of 30: without processing,
    with processing attached to an output queue, and with a processing
    function but no output queue. *)
Definition ex_plain : @FrameDispatcher (nat * bool) nat :=
  FrameDispatcher_init false None (PyInt 30).
Definition ex_attached : @FrameDispatcher (nat * bool) nat :=
  FrameDispatcher_init true (Some ex_double) (PyInt 30).
Definition ex_no_sink : @FrameDispatcher (nat * bool) nat :=
  FrameDispatcher_init false (Some ex_double) (PyInt 30).
Definition ex_raising : @FrameDispatcher (nat * bool) nat :=
  FrameDispatcher_init true (Some ex_failing) (PyInt 30).

(** The state at the top of the loop once [frames] have gone through. *)
Definition ex_state_after (now : nat -> Z) (d : @FrameDispatcher (nat * bool) nat)
    (frames : list (nat * bool)) : run_state :=
  default (enter now d) (iterate ex_swapaxes now frames (enter now d)).

(** Control updates [{'exposure': 0.01}], [{'gain': 4}] and
    [{'exposure': 0.0015}]. *)
Definition ex_update_exposure : gmap string py_num :=
  {[ "exposure"%string := PyFloat (Binary64.literal 1 100) ]}.
Definition ex_update_gain : gmap string py_num := {[ "gain"%string := PyInt 4 ]}.
Definition ex_update_fraction : gmap string py_num :=
  {[ "exposure"%string := PyFloat (Binary64.literal 15 10000) ]}.

(** A camera with an empty control queue, and iterations of its
    surroundings: nothing happens, both updates are submitted, the
    termination event is set. *)
Definition ex_camera : @XimeaCamera (nat * bool) := camera_start [] (Some []) (PyInt 0).
Definition ex_idle (n : nat) : @world (nat * bool) :=
  {| submitted := []; set_event := false; image := ex_frame n |}.
Definition ex_two_updates (n : nat) : @world (nat * bool) :=
  {| submitted := [ex_update_exposure; ex_update_gain]; set_event := false;
     image := ex_frame n |}.
Definition ex_stop (n : nat) : @world (nat * bool) :=
  {| submitted := []; set_event := true; image := ex_frame n |}.

(** ** The counters of the dispatcher loop *)

(** The ranges the three counters of the loop stay in. *)
Definition in_range {Frame Result : Type} (s : @run_state Frame Result) : Prop :=
  1 <= every_x s /\ 0 <= self_i (self s) < every_x s /\ 0 <= i s < n_fps_frames.

(** Projections of updated states. *)
Ltac fields :=
  cbn [fst snd self previous_time i current_framerate every_x clock_reads calls stdout
       gui_queue self_i gui_framerate processing_function output_queue
       with_self set_gui_queue set_self_i set_output_queue set_previous_time set_i
       set_current_framerate set_every_x set_clock_reads set_calls set_stdout] in *.

(** * stytra/gui/multiscope.py: the computations of [MultiStreamPlot]

    The widgets of PyQt and pyqtgraph are outside this development; what
    is embedded is what the class computes on its own: the colours, the
    downsampling of the data and the bookkeeping of the streams.  In this
    module the colour channels and the positions of the labels are
    rationals. *)
Module MultiScope.

Inductive exn : Type :=
| ValueError
| ZeroDivisionError.

Inductive result (A : Type) : Type :=
| Done (a : A)
| Raised (e : exn).
Arguments Done {A} a.
Arguments Raised {A} e.

(** [np.clip(x, lo, hi)]: [minimum(maximum(x, lo), hi)]. *)
Definition np_clip (x lo hi : Q) : Q := Qmin (Qmax x lo) hi.

(** [a[::step]] for a positive step, counting down from [skip]. *)
Fixpoint every_nth {A} (step skip : nat) (a : list A) : list A :=
  match a with
  | [] => []
  | r :: a' =>
      match skip with
      | O => r :: every_nth step (pred step) a'
      | S skip' => every_nth step skip' a'
      end
  end.

(** [a[::step]]: a zero step is an error, a negative one walks back from
    the last row. *)
Definition slice_step {A} (step : Z) (a : list A) : result (list A) :=
  match step with
  | Z0 => Raised ValueError
  | Zpos p => Done (every_nth (Pos.to_nat p) 0 a)
  | Zneg p => Done (every_nth (Pos.to_nat p) 0 (rev a))
  end.

(** Lines 342-343 of [update]. *)
Definition downsample {A} (n_points_max : Z) (data_array : list A) : result (list A) :=
  if n_points_max <? Z.of_nat (length data_array) then
    if n_points_max =? 0 then Raised ZeroDivisionError
    else slice_step (Z.of_nat (length data_array) / n_points_max) data_array
  else Done data_array.

Section Colors.

(** [colorspacious.cspace_convert(., "CIELCh", "sRGB1")] on one row. *)
Variable cspace_convert : Q * Q * Q -> Q * Q * Q.

(** [np.linspace(0, 360, n_colors + 1)[:-1] + shift]. *)
Definition hues (n_colors : nat) (shift : Q) : list Q :=
  map (fun k => (inject_Z (Z.of_nat k) * (360 / inject_Z (Z.of_nat n_colors)) + shift)%Q)
      (seq 0 n_colors).

(** Lines 147-185, [get_colors]. *)
Definition get_colors (n_colors : nat) (lightness saturation shift : Q)
    : list (Q * Q * Q) :=
  map (fun h =>
         let '(r, g, b) := cspace_convert (1 * lightness, 1 * saturation, h)%Q in
         (np_clip r 0 1 * 255, np_clip g 0 1 * 255, np_clip b 0 1 * 255)%Q)
      (hues n_colors shift).

End Colors.

(** *** The streams of a plot

    A pyqtgraph item is represented by what this class sets on it. *)

Record DataAccumulator : Type := {
  name : string;
  header_list : list string;
  monitored_headers : option (list string)
}.

Record TextItem : Type := {
  text : string;
  anchor : Q * Q;
  pos : Q * Q;
  bold : bool;
  color : option (Q * Q * Q)
}.

Record PlotCurveItem : Type := {
  xdata : list Q;
  ydata : list Q;
  pen : option (Q * Q * Q)
}.

(** [PlotTuple], line 21. *)
Record PlotTuple : Type := {
  curve : PlotCurveItem;
  curve_label : TextItem;
  min_label : TextItem;
  max_label : TextItem;
  value_label : TextItem
}.

(** The attributes of [MultiStreamPlot] that [add_stream] and
    [remove_streams] read or write; [y_range] is the range last given to
    [plotContainer.setYRange]. *)
Record MultiStreamPlot : Type := {
  time_past : Q;
  stream_items : list PlotTuple;
  accumulators : list DataAccumulator;
  header_indexes : list (list nat);
  bounds : list (option (list (Q * Q)));
  colors : list (Q * Q * Q);
  y_range : Q * Q
}.

(** [l.index(x)]: the first position of [x]; [None] stands for the
    [ValueError] raised when there is none. *)
Fixpoint py_index (x : string) (l : list string) : option nat :=
  match l with
  | [] => None
  | y :: rest => if String.eqb y x then Some O else option_map S (py_index x rest)
  end.

(** Lines 216-232: the items made for the curve at height [i_curve]. *)
Definition new_item (time_past : Q) (i_curve : nat) (header_item : string) : PlotTuple :=
  let h := inject_Z (Z.of_nat i_curve) in
  {| curve := {| xdata := [0%Q]; ydata := [h]; pen := None |};
     curve_label := {| text := header_item; anchor := (0, 1)%Q;
                       pos := (- time_past * (9 # 10), h)%Q; bold := false; color := None |};
     min_label := {| text := ""; anchor := (0, 1)%Q; pos := (0, h)%Q;
                     bold := false; color := None |};
     max_label := {| text := ""; anchor := (0, 0)%Q; pos := (0, h + 1)%Q;
                     bold := false; color := None |};
     value_label := {| text := ""; anchor := (0, 1 # 2)%Q; pos := (0, h + (1 # 2))%Q;
                       bold := true; color := None |} |}.

Definition setColor (c : Q * Q * Q) (t : TextItem) : TextItem :=
  {| text := text t; anchor := anchor t; pos := pos t; bold := bold t; color := Some c |}.

Definition setPen (c : Q * Q * Q) (p : PlotCurveItem) : PlotCurveItem :=
  {| xdata := xdata p; ydata := ydata p; pen := Some c |}.

(** Lines 241-246: every item of one stream given the colour. *)
Definition paint (sitems : PlotTuple) (c : Q * Q * Q) : PlotTuple :=
  {| curve := setPen c (curve sitems);
     curve_label := setColor c (curve_label sitems);
     min_label := setColor c (min_label sitems);
     max_label := setColor c (max_label sitems);
     value_label := setColor c (value_label sitems) |}.

(** Lines 240-246: [zip] stops at the shorter of the two lists; streams
    beyond the colours are left as they are. *)
Definition paint_all (stream_items : list PlotTuple) (colors : list (Q * Q * Q))
    : list PlotTuple :=
  zip_with paint stream_items colors ++ drop (length colors) stream_items.

Section Streams.

Variable cspace_convert : Q * Q * Q -> Q * Q * Q.

(** Lines 202-206: the headers plotted when none, or some, are given. *)
Definition chosen_headers (accumulator : DataAccumulator)
    (header_items : option (list string)) : list string :=
  match header_items with
  | Some h => h
  | None =>
      match monitored_headers accumulator with
      | Some m => m
      | None => drop 1 (header_list accumulator)
      end
  end.

(** Lines 187-247, [add_stream]; the state is returned as it is when the
    exception, if any, is raised. *)
Definition add_stream (accumulator : DataAccumulator) (header_items : option (list string))
    (self : MultiStreamPlot) : MultiStreamPlot * option exn :=
  let header_items := chosen_headers accumulator header_items in
  let colors :=
    get_colors cspace_convert (length (stream_items self) + length header_items) 50 50 0 in
  let accumulators := accumulators self ++ [accumulator] in
  match mapM (fun dv => py_index dv (header_list accumulator)) header_items with
  | None =>
      ({| time_past := time_past self; stream_items := stream_items self;
          accumulators := accumulators; header_indexes := header_indexes self;
          bounds := bounds self; colors := colors; y_range := y_range self |},
       Some ValueError)
  | Some indexes =>
      let i_curve := length (stream_items self) in
      let stream_items :=
        stream_items self ++
        imap (fun k header_item => new_item (time_past self) (i_curve + k) header_item)
             header_items in
      ({| time_past := time_past self;
          stream_items := paint_all stream_items colors;
          accumulators := accumulators;
          header_indexes := header_indexes self ++ [indexes];
          bounds := bounds self ++ [None];
          colors := colors;
          y_range := (- (1 # 10), inject_Z (Z.of_nat (length stream_items)) + (1 # 10))%Q |},
       None)
  end.

(** Lines 249-257, [remove_streams]. *)
Definition remove_streams (self : MultiStreamPlot) : MultiStreamPlot :=
  {| time_past := time_past self; stream_items := []; accumulators := [];
     header_indexes := []; bounds := []; colors := colors self; y_range := y_range self |}.

(** Lines 124-145 of [__init__]: a plot without streams. *)
Definition MultiStreamPlot_init (time_past : Q) : MultiStreamPlot :=
  {| time_past := time_past; stream_items := []; accumulators := [];
     header_indexes := []; bounds := []; colors := [];
     y_range := (- (1 # 10), 0 + (1 # 10))%Q |}.

(** Lines 479-482: whether the box of [item] starts checked. *)
Definition starts_checked (ac : DataAccumulator) (item : string) : bool :=
  match monitored_headers ac with
  | None => true
  | Some m => bool_decide (item ∈ m)
  end.

(** [StreamPlotConfig]: the plot, the accumulators it had when the
    window was made, and for each of them whether each box is checked. *)
Record StreamPlotConfig : Type := {
  sp : MultiStreamPlot;
  accs : list DataAccumulator;
  checkboxes : list (list bool)
}.

(** Lines 467-488, [StreamPlotConfig.__init__]: one box per header but
    the first, checked when the header is monitored. *)
Definition StreamPlotConfig_init (sp : MultiStreamPlot) : StreamPlotConfig :=
  {| sp := sp;
     accs := accumulators sp;
     checkboxes :=
       map (fun ac => map (starts_checked ac) (drop 1 (header_list ac)))
           (accumulators sp) |}.

(** Lines 493-496: the headers whose box is checked. *)
Definition sel_headers (ac : DataAccumulator) (chkboxes : list bool) : list string :=
  map fst (filter (fun p => snd p = true) (zip (drop 1 (header_list ac)) chkboxes)).

(** Lines 492-497: the loop of [refresh_plots]. *)
Fixpoint add_selected (pairs : list (list bool * DataAccumulator)) (self : MultiStreamPlot)
    : MultiStreamPlot * option exn :=
  match pairs with
  | [] => (self, None)
  | (chkboxes, ac) :: rest =>
      match add_stream ac (Some (sel_headers ac chkboxes)) self with
      | (self', None) => add_selected rest self'
      | failed => failed
      end
  end.

(** Lines 490-497, [refresh_plots]. *)
Definition refresh_plots (self : StreamPlotConfig) : StreamPlotConfig * option exn :=
  let r := add_selected (zip (checkboxes self) (accs self)) (remove_streams (sp self)) in
  ({| sp := fst r; accs := accs self; checkboxes := checkboxes self |}, snd r).

(** What [update] relies on when it walks the streams of a plot: one
    list of indexes and one entry of bounds per accumulator, every index
    within the headers of its accumulator, one stream item per index, a
    colour for every stream, and the items of stream [k] placed at height
    [k] in colour [k]. *)
Definition consistent (self : MultiStreamPlot) : Prop :=
  length (accumulators self) = length (header_indexes self) /\
  length (bounds self) = length (header_indexes self) /\
  Forall2 (fun ac indexes => Forall (fun i => i < length (header_list ac))%nat indexes)
          (accumulators self) (header_indexes self) /\
  length (stream_items self) = length (concat (header_indexes self)) /\
  (length (stream_items self) <= length (colors self))%nat /\
  (forall k item c,
     stream_items self !! k = Some item -> colors self !! k = Some c ->
     item = paint (new_item (time_past self) k (text (curve_label item))) c).

End Streams.

End MultiScope.

(** ** Concrete inputs for the further properties *)

(** A processing function that raises [queue.Empty] on frame 3. *)
Definition ex_empty_on_3 (frame : nat * bool) : outcome nat :=
  if Nat.eqb (fst frame) 3 then Raise Empty else Ok (fst frame).

Definition ex_picky : @FrameDispatcher (nat * bool) nat :=
  FrameDispatcher_init true (Some ex_empty_on_3) (PyInt 30).

(** A camera with two updates pending, and one without a control queue. *)
Definition ex_camera_pending : @XimeaCamera (nat * bool) :=
  camera_start [] (Some [ex_update_exposure; ex_update_gain]) (PyInt 0).
Definition ex_camera_no_control : @XimeaCamera (nat * bool) := camera_start [] None (PyInt 0).

(** Accumulators with and without monitored headers, a stand-in for the
    colour conversion, and a plot without streams. *)
Definition ex_acc : MultiScope.DataAccumulator :=
  {| MultiScope.name := "tail";
     MultiScope.header_list := ["t"; "tail_sum"; "theta_00"]%string;
     MultiScope.monitored_headers := Some ["tail_sum"%string] |}.
Definition ex_acc_all : MultiScope.DataAccumulator :=
  {| MultiScope.name := "position";
     MultiScope.header_list := ["t"; "x"; "y"]%string;
     MultiScope.monitored_headers := None |}.
Definition ex_convert (c : Q * Q * Q) : Q * Q * Q := c.
Definition ex_plot : MultiScope.MultiStreamPlot := MultiScope.MultiStreamPlot_init 5.

(** ** The arithmetic on concrete numbers *)

(** The throughput estimate after a window of [elapsed] microseconds,
    and the stride against a target rate. *)
Definition ex_rate (elapsed : Z) : outcome spec_float :=
  py_truediv (PyInt 10) (PyFloat (total_seconds elapsed)).
Definition ex_stride (elapsed : Z) (gui_framerate : py_num) : outcome Z :=
  and_then (ex_rate elapsed) (fun rate => stride_of (PyFloat rate) gui_framerate).

Example stride_300_30 : stride_of (PyFloat (Binary64.of_Z 300)) (PyInt 30) = Ok 10.
Proof. vm_compute. reflexivity. Qed.

Example stride_25_30 : stride_of (PyFloat (Binary64.of_Z 25)) (PyInt 30) = Ok 1.
Proof. vm_compute. reflexivity. Qed.

Example stride_50_30 :
  ex_rate 200000 = Ok (Binary64.of_Z 50) /\ ex_stride 200000 (PyInt 30) = Ok 1 /\
  spec_stride 50 30 = 2.
Proof. vm_compute. repeat split. Qed.

(** Both divisions round: ten frames in 10 microseconds against a target
    of 10 give 99999 and not 100000, ten frames in 5.12 ms against 0.625
    give 3124 and not 3125. *)
Example stride_divisions_round :
  ex_stride 10 (PyInt 10) = Ok 99999 /\
  ex_stride 5120 (PyFloat (Binary64.literal 625 1000)) = Ok 3124.
Proof. vm_compute. split; reflexivity. Qed.

(** The exceptions of lines 70-71: a clock that has not moved, a target
    of zero, a quotient beyond the largest double, a target too large for
    a double. *)
Example stride_exceptions :
  ex_stride 0 (PyInt 30) = Raise ZeroDivisionError /\
  ex_stride 200000 (PyInt 0) = Raise ZeroDivisionError /\
  ex_stride 200000 (PyFloat (Binary64.literal 1 (10 ^ 307))) = Raise OverflowError /\
  ex_stride 200000 (PyInt (10 ^ 400)) = Raise OverflowError /\
  ex_stride 200000 (PyFloat S754_nan) = Raise ValueError.
Proof. vm_compute. repeat split. Qed.

(** A clock that went backwards gives a negative estimate and the stride 1. *)
Example stride_clock_backwards : ex_stride (-33333) (PyInt 30) = Ok 1.
Proof. vm_compute. reflexivity. Qed.

(** Line 28 on 0.01, 0.0015, 1.001, 0.009 and 7: the product is a
    double, so 1.001 gives 1000 and 0.009 gives 9. *)
Example exposure_units_examples :
  exposure_units (PyFloat (Binary64.literal 1 100)) = Ok 10 /\
  exposure_units (PyFloat (Binary64.literal 15 10000)) = Ok 1 /\
  exposure_units (PyFloat (Binary64.literal 1001 1000)) = Ok 1000 /\
  exposure_units (PyFloat (Binary64.literal 9 1000)) = Ok 9 /\
  exposure_units (PyInt 7) = Ok 7000.
Proof. vm_compute. repeat split. Qed.

Example exposure_units_exceptions :
  exposure_units (PyFloat (S754_infinity false)) = Raise OverflowError /\
  exposure_units (PyFloat (Binary64.of_Z (10 ^ 306))) = Raise OverflowError /\
  exposure_units (PyFloat S754_nan) = Raise ValueError.
Proof. vm_compute. repeat split. Qed.

(** * Properties *)

(** ** Truncation *)

Lemma Qtruncate_floor (x : Q) : (0 <= x)%Q -> Qtruncate x = Qfloor x.
Proof.
  destruct x as [n d]. unfold Qle, Qtruncate. simpl. intros Hn.
  apply Z.quot_div_nonneg; lia.
Qed.

Lemma Qtruncate_nonneg_bounds (x : Q) :
  (0 <= x)%Q -> (inject_Z (Qtruncate x) <= x)%Q /\ (x < inject_Z (Qtruncate x) + 1)%Q.
Proof.
  intros Hx. rewrite (Qtruncate_floor x Hx). split.
  - apply Qfloor_le.
  - replace (inject_Z (Qfloor x) + 1)%Q with (inject_Z (Qfloor x) + inject_Z 1)%Q by reflexivity.
    rewrite <- inject_Z_plus. apply Qlt_floor.
Qed.

Lemma Qtruncate_nonpos_bounds (x : Q) :
  (x <= 0)%Q -> (inject_Z (Qtruncate x) - 1 < x)%Q /\ (x <= inject_Z (Qtruncate x))%Q.
Proof.
  destruct x as [n d]. unfold Qle, Qlt, Qtruncate. simpl. intros Hn.
  assert (Hq : Z.quot n (Z.pos d) = - ((- n) / Z.pos d)).
  { rewrite <- (Z.opp_involutive n) at 1. rewrite Z.quot_opp_l by lia.
    f_equal. apply Z.quot_div_nonneg; lia. }
  rewrite Hq.
  pose proof (Z.mul_div_le (- n) (Z.pos d) ltac:(lia)).
  pose proof (Z.mul_succ_div_gt (- n) (Z.pos d) ltac:(lia)).
  split; nia.
Qed.

Lemma Qtruncate_inject_Z (x : Q) (n : Z) : (x == inject_Z n)%Q -> Qtruncate x = n.
Proof.
  destruct x as [a d]. unfold Qeq, Qtruncate. simpl. intros H.
  replace a with (n * Z.pos d) by lia. apply Z.quot_mul. lia.
Qed.

Lemma Qtruncate_below_one (x : Q) : (x < 1)%Q -> Qtruncate x <= 0.
Proof.
  destruct x as [n d]. unfold Qlt, Qtruncate. simpl. intros H.
  destruct (Z_le_gt_dec 0 n) as [Hn | Hn].
  - rewrite Z.quot_small; lia.
  - pose proof (Z.quot_opp_l (- n) (Z.pos d) ltac:(lia)) as Ho.
    rewrite Z.opp_involutive in Ho. rewrite Ho.
    pose proof (Z.quot_pos (- n) (Z.pos d) ltac:(lia) ltac:(lia)). lia.
Qed.

(** [max(int(x), 1)] is [max(1, floor(x))]: below 1 both are 1, and from
    1 on truncation and floor agree. *)
Lemma max_Qtruncate_floor (x : Q) : Z.max (Qtruncate x) 1 = Z.max 1 (Qfloor x).
Proof.
  destruct (Qlt_le_dec x 1) as [H | H].
  - pose proof (Qtruncate_below_one x H).
    assert (Qfloor x <= 0).
    { assert (Hf : Qfloor x < 1); [| lia].
      rewrite Zlt_Qlt. eapply Qle_lt_trans; [apply Qfloor_le | exact H]. }
    lia.
  - rewrite Qtruncate_floor; [lia |]. eapply Qle_trans; [| exact H]. discriminate.
Qed.

(** The integer part of a double is the integer part of the number it
    stands for. *)
Lemma truncate_to_Q (x : spec_float) :
  Binary64.truncate x = Qtruncate (Binary64.to_Q x).
Proof.
  destruct x as [s | s | | s m e]; try reflexivity.
  unfold Binary64.truncate, Binary64.to_Q, Qtruncate.
  destruct e as [| p | p].
  - cbn [Qnum Qden inject_Z]. rewrite Z.quot_1_r, Z.shiftl_0_r, Z.pow_0_r, Z.mul_1_r.
    destruct s; reflexivity.
  - cbn [Qnum Qden inject_Z]. rewrite Z.quot_1_r, Z.shiftl_mul_pow2 by lia.
    destruct s; [| reflexivity]. change (Z.neg m) with (- Z.pos m). lia.
  - cbn [Qnum Qden]. rewrite Z.shiftr_div_pow2 by lia.
    rewrite Pos2Z.inj_pow. change (Z.pos 2) with 2.
    assert (Hp : 0 < 2 ^ Z.pos p) by (apply Z.pow_pos_nonneg; lia).
    destruct s.
    + change (Z.neg m) with (- Z.pos m). rewrite Z.quot_opp_l by lia.
      f_equal. symmetry. apply Z.quot_div_nonneg; lia.
    + symmetry. apply Z.quot_div_nonneg; lia.
Qed.

Lemma py_int_finite (x : spec_float) :
  Binary64.is_finite x = true -> py_int (PyFloat x) = Ok (Qtruncate (Binary64.to_Q x)).
Proof.
  intros H. rewrite <- truncate_to_Q. destruct x; try discriminate; reflexivity.
Qed.

Lemma py_int_returns (x : spec_float) (k : Z) :
  py_int (PyFloat x) = Ok k -> Binary64.is_finite x = true.
Proof. destruct x; try discriminate; reflexivity. Qed.

(** ** The decimation stride *)

(** Line 71 returns exactly when the quotient is computed and is a finite
    double [q]; the stride is then [max(1, floor(q))]. *)
Lemma stride_of_returns (R D : py_num) (k : Z) :
  stride_of R D = Ok k <->
  exists q, py_truediv R D = Ok q /\ Binary64.is_finite q = true /\
            k = Z.max 1 (Qfloor (Binary64.to_Q q)).
Proof.
  unfold stride_of, and_then. split.
  - destruct (py_truediv R D) as [q | e]; [| discriminate].
    destruct (py_int (PyFloat q)) as [n | e] eqn:Hn; [| discriminate].
    intros H. injection H as <-.
    pose proof (py_int_returns q n Hn) as Hfin.
    rewrite (py_int_finite q Hfin) in Hn. injection Hn as <-.
    exists q. split; [reflexivity |]. split; [exact Hfin |]. apply max_Qtruncate_floor.
  - intros (q & -> & Hfin & ->). rewrite (py_int_finite q Hfin).
    f_equal. apply max_Qtruncate_floor.
Qed.

Lemma stride_of_ge_1 (R D : py_num) (k : Z) : stride_of R D = Ok k -> 1 <= k.
Proof. intros H. apply stride_of_returns in H as (q & _ & _ & ->). lia. Qed.

(** The exceptions of a division. *)
Lemma py_truediv_raises (a b : py_num) (e : py_exn) :
  py_truediv a b = Raise e -> e = ZeroDivisionError \/ e = OverflowError.
Proof.
  unfold py_truediv, and_then, py_float. intros H.
  repeat case_match; simplify_eq; auto.
Qed.

(** The exceptions of line 71. *)
Lemma stride_of_raises (R D : py_num) (e : py_exn) :
  stride_of R D = Raise e ->
  e = ZeroDivisionError \/ e = OverflowError \/ e = ValueError.
Proof.
  intros H. unfold stride_of, and_then in H.
  destruct (py_truediv R D) as [q | e'] eqn:Hq.
  - destruct (py_int (PyFloat q)) as [n | e'] eqn:Hi; [discriminate |].
    injection H as <-. destruct q; unfold py_int in Hi; simplify_eq; auto.
  - injection H as <-. apply py_truediv_raises in Hq. tauto.
Qed.

(** The stride lies within one of the quotient, from below. *)
Lemma floor_stride_bounds (x : Q) :
  ((1 <= x)%Q ->
   (inject_Z (Z.max 1 (Qfloor x)) <= x)%Q /\ (x < inject_Z (Z.max 1 (Qfloor x)) + 1)%Q) /\
  ((x < 1)%Q -> Z.max 1 (Qfloor x) = 1).
Proof.
  split.
  - intros H. assert (H1 : 1 <= Qfloor x).
    { change 1 with (Qfloor (inject_Z 1)). apply Qfloor_resp_le. exact H. }
    rewrite Z.max_r by lia. split; [apply Qfloor_le |].
    replace (inject_Z (Qfloor x) + 1)%Q with (inject_Z (Qfloor x) + inject_Z 1)%Q by reflexivity.
    rewrite <- inject_Z_plus. apply Qlt_floor.
  - intros H. assert (Hf : Qfloor x < 1); [| lia].
    rewrite Zlt_Qlt. eapply Qle_lt_trans; [apply Qfloor_le | exact H].
Qed.



(** ** The dispatcher *)

Ltac unfold_run :=
  unfold steps_to, body, process, calculate_framerate, advance_window, display,
    datetime_now, bind, ret, get, modify, lift, n_fps_frames in *.

Ltac exec :=
  unfold_run; cbn in *;
  repeat (case_match; cbn in *; simplify_eq; try done);
  try congruence;
  repeat match goal with
         | H : (_ =? _) = true |- _ => apply Z.eqb_eq in H
         | H : (_ =? _) = false |- _ => apply Z.eqb_neq in H
         end.

Section Dispatcher_facts.

Context {Frame Result : Type}.
Variable swapaxes : Frame -> Frame.
Variable now : nat -> Z.

Local Abbreviation run_state := (@run_state Frame Result).
Local Abbreviation body := (body swapaxes now).
Local Abbreviation bookkeep := (bookkeep swapaxes now).
Local Abbreviation clock_synced := (clock_synced now).
Local Abbreviation enter := (enter now).
Local Abbreviation FrameDispatcher := (@FrameDispatcher Frame Result).
Local Abbreviation loop := (loop swapaxes now).
Local Abbreviation run := (run swapaxes now).
Local Abbreviation steps_to := (steps_to swapaxes now).
Local Abbreviation iterate := (iterate swapaxes now).
Local Abbreviation strides := (strides swapaxes now).
Local Abbreviation reachable := (reachable swapaxes now).

(** *** The statements of the loop body, one at a time *)

(** Lines 65-66, by cases on the configuration. *)
Lemma process_unconfigured frame (s : run_state) :
  processing_function (self s) = None -> process frame s = (Ok tt, s).
Proof. intros H. unfold process, bind, get, ret. cbn. rewrite H. reflexivity. Qed.

Lemma process_no_queue frame (s : run_state) f :
  processing_function (self s) = Some f -> output_queue (self s) = None ->
  process frame s = (Raise AttributeError, s).
Proof. intros H1 H2. unfold process, bind, get, ret, lift. cbn. rewrite H1, H2. reflexivity. Qed.

Lemma process_returns frame (s : run_state) f oq r :
  processing_function (self s) = Some f -> output_queue (self s) = Some oq ->
  f frame = Ok r ->
  process frame s =
    (Ok tt, with_self (set_output_queue (Some (oq ++ [r]))) (set_calls (calls s ++ [frame]) s)).
Proof.
  intros H1 H2 H3. unfold process, bind, get, ret, lift, modify. cbn.
  rewrite H1, H2. cbn. rewrite H3. reflexivity.
Qed.

Lemma process_raises frame (s : run_state) f oq e :
  processing_function (self s) = Some f -> output_queue (self s) = Some oq ->
  f frame = Raise e ->
  process frame s = (Raise e, set_calls (calls s ++ [frame]) s).
Proof.
  intros H1 H2 H3. unfold process, bind, get, ret, lift, modify. cbn.
  rewrite H1, H2. cbn. rewrite H3. reflexivity.
Qed.

(** The processing step leaves the bookkeeping alone, however it ends. *)
Lemma process_bookkeeping frame (s : run_state) :
  bookkeeping (snd (process frame s)) = bookkeeping s /\
  processing_function (self (snd (process frame s))) = processing_function (self s) /\
  (is_Some (output_queue (self (snd (process frame s)))) <->
   is_Some (output_queue (self s))).
Proof.
  destruct (processing_function (self s)) as [f |] eqn:Hf.
  - destruct (output_queue (self s)) as [oq |] eqn:Hq.
    + destruct (f frame) as [r | e] eqn:Hr.
      * rewrite (process_returns _ _ _ _ _ Hf Hq Hr). cbn. rewrite ?Hq, ?Hf.
        split; [done|]. split; [done|]. split; eauto.
      * rewrite (process_raises _ _ _ _ _ Hf Hq Hr). cbn. rewrite ?Hq, ?Hf. done.
    + rewrite (process_no_queue _ _ _ Hf Hq). cbn. rewrite ?Hq, ?Hf. done.
  - rewrite (process_unconfigured _ _ Hf). cbn. rewrite ?Hf. done.
Qed.

(** Lines 68-80 after the processing step: everything but [process]. *)
Lemma body_split frame (s : run_state) :
  body frame s =
    match process frame s with
    | (Ok _, s1) => bookkeep frame s1
    | (Raise e, s1) => (Raise e, s1)
    end.
Proof. reflexivity. Qed.

(** The bookkeeping touches neither the processing side nor the calls. *)
Lemma bookkeep_processing frame (s : run_state) :
  let s' := snd (bookkeep frame s) in
  processing_function (self s') = processing_function (self s) /\
  output_queue (self s') = output_queue (self s) /\
  calls s' = calls s /\ stdout s' = stdout s /\
  gui_framerate (self s') = gui_framerate (self s).
Proof. unfold bookkeep. exec. Qed.

(** It raises nothing but what the arithmetic of lines 70-71 raises. *)
Lemma bookkeep_raises frame (s s' : run_state) e :
  bookkeep frame s = (Raise e, s') ->
  e = ZeroDivisionError \/ e = OverflowError \/ e = ValueError.
Proof.
  unfold bookkeep. intros H. exec;
    repeat match goal with
           | H : py_truediv _ _ = Raise _ |- _ => apply py_truediv_raises in H
           | H : stride_of _ _ = Raise _ |- _ => apply stride_of_raises in H
           end; tauto.
Qed.

(** It is a function of the bookkeeping fields alone. *)
Lemma bookkeep_simulation frame (s t : run_state) :
  bookkeeping s = bookkeeping t ->
  fst (bookkeep frame s) = fst (bookkeep frame t) /\
  bookkeeping (snd (bookkeep frame s)) = bookkeeping (snd (bookkeep frame t)).
Proof.
  destruct s as [[? ? ? ? ?] ? ? ? ? ? ? ?], t as [[? ? ? ? ?] ? ? ? ? ? ? ?].
  unfold bookkeeping. cbn. intros H. simplify_eq.
  unfold bookkeep. exec.
Qed.

(** Lines 75-77 on a completed iteration. *)
Lemma bookkeep_display frame (s s' : run_state) :
  bookkeep frame s = (Ok tt, s') ->
  gui_queue (self s') =
    gui_queue (self s) ++ (if self_i (self s) =? 0 then [swapaxes frame] else []) /\
  self_i (self s') = (self_i (self s) + 1) mod every_x s'.
Proof. unfold bookkeep. intros H. exec; rewrite ?app_nil_r; auto. Qed.

(** Line 74 on a completed iteration. *)
Lemma bookkeep_window frame (s s' : run_state) :
  bookkeep frame s = (Ok tt, s') -> i s' = (i s + 1) mod n_fps_frames.
Proof. unfold bookkeep. intros H. exec. Qed.

(** Lines 68-73: off the window boundary nothing is refreshed; on it
    the clock is read once and the stride recomputed. *)
Lemma bookkeep_no_refresh frame (s s' : run_state) :
  bookkeep frame s = (Ok tt, s') -> i s <> n_fps_frames - 1 ->
  every_x s' = every_x s /\ previous_time s' = previous_time s /\
  clock_reads s' = clock_reads s /\ current_framerate s' = current_framerate s.
Proof. unfold bookkeep. intros H Hi. exec; auto; lia. Qed.

Lemma bookkeep_refresh frame (s s' : run_state) :
  bookkeep frame s = (Ok tt, s') -> i s = n_fps_frames - 1 ->
  (exists rate,
     py_truediv (PyInt n_fps_frames)
                (PyFloat (total_seconds (now (clock_reads s) - previous_time s))) = Ok rate /\
     current_framerate s' = PyFloat rate) /\
  stride_of (current_framerate s') (gui_framerate (self s')) = Ok (every_x s') /\
  previous_time s' = now (clock_reads s) /\
  clock_reads s' = S (clock_reads s).
Proof.
  unfold bookkeep. intros H Hi. exec; fields; try lia;
    (split; [eexists; split; reflexivity | auto]).
Qed.

(** A completed iteration is a completed processing step followed by
    completed bookkeeping. *)
Lemma steps_to_inv frame (s s' : run_state) :
  steps_to s frame s' ->
  exists s1, process frame s = (Ok tt, s1) /\ bookkeep frame s1 = (Ok tt, s').
Proof.
  unfold steps_to. rewrite body_split.
  destruct (process frame s) as [[[] | e] s1]; [eauto | discriminate].
Qed.

(** The fields of the bookkeeping, across the processing step. *)
Lemma process_fields frame (s s1 : run_state) o :
  process frame s = (o, s1) ->
  gui_queue (self s1) = gui_queue (self s) /\ self_i (self s1) = self_i (self s) /\
  gui_framerate (self s1) = gui_framerate (self s) /\
  previous_time s1 = previous_time s /\ i s1 = i s /\
  current_framerate s1 = current_framerate s /\ every_x s1 = every_x s /\
  clock_reads s1 = clock_reads s /\ stdout s1 = stdout s.
Proof.
  intros H. destruct (process_bookkeeping frame s) as (Hk & _).
  rewrite H in Hk. unfold bookkeeping in Hk. cbn in Hk.
  injection Hk as -> -> -> -> -> -> -> -> ->. repeat split.
Qed.

(** *** A completed iteration *)

Lemma steps_to_display frame (s s' : run_state) :
  steps_to s frame s' ->
  gui_queue (self s') =
    gui_queue (self s) ++ (if self_i (self s) =? 0 then [swapaxes frame] else []) /\
  self_i (self s') = (self_i (self s) + 1) mod every_x s'.
Proof.
  intros H. destruct (steps_to_inv _ _ _ H) as (s1 & Hp & Hb).
  destruct (process_fields _ _ _ _ Hp) as (Hg & Hi & _).
  destruct (bookkeep_display _ _ _ Hb) as (-> & ->). rewrite Hg, Hi. done.
Qed.

Lemma steps_to_window frame (s s' : run_state) :
  steps_to s frame s' -> i s' = (i s + 1) mod n_fps_frames.
Proof.
  intros H. destruct (steps_to_inv _ _ _ H) as (s1 & Hp & Hb).
  destruct (process_fields _ _ _ _ Hp) as (_ & _ & _ & _ & Hi & _).
  rewrite (bookkeep_window _ _ _ Hb), Hi. done.
Qed.

Lemma steps_to_no_refresh frame (s s' : run_state) :
  steps_to s frame s' -> i s <> n_fps_frames - 1 ->
  every_x s' = every_x s /\ previous_time s' = previous_time s /\
  clock_reads s' = clock_reads s /\ current_framerate s' = current_framerate s.
Proof.
  intros H Hne. destruct (steps_to_inv _ _ _ H) as (s1 & Hp & Hb).
  destruct (process_fields _ _ _ _ Hp) as (_ & _ & _ & Ht & Hi & Hr & Hx & Hc & _).
  rewrite <- Hi in Hne.
  destruct (bookkeep_no_refresh _ _ _ Hb Hne) as (-> & -> & -> & ->). done.
Qed.

Lemma steps_to_refresh frame (s s' : run_state) :
  steps_to s frame s' -> i s = n_fps_frames - 1 ->
  (exists rate,
     py_truediv (PyInt n_fps_frames)
                (PyFloat (total_seconds (now (clock_reads s) - previous_time s))) = Ok rate /\
     current_framerate s' = PyFloat rate) /\
  stride_of (current_framerate s') (gui_framerate (self s')) = Ok (every_x s') /\
  previous_time s' = now (clock_reads s) /\
  clock_reads s' = S (clock_reads s).
Proof.
  intros H He. destruct (steps_to_inv _ _ _ H) as (s1 & Hp & Hb).
  destruct (process_fields _ _ _ _ Hp) as (_ & _ & _ & Ht & Hi & Hr & Hx & Hc & _).
  rewrite <- Hi in He.
  destruct (bookkeep_refresh _ _ _ Hb He) as (Hrate & Hstride & -> & ->).
  rewrite <- Hc, <- Ht. done.
Qed.

Lemma steps_to_stride_ge_1 frame (s s' : run_state) :
  steps_to s frame s' -> 1 <= every_x s -> 1 <= every_x s'.
Proof.
  intros H Hs. destruct (Z.eq_dec (i s) (n_fps_frames - 1)) as [Hi | Hi].
  - destruct (steps_to_refresh _ _ _ H Hi) as (_ & Hx & _). exact (stride_of_ge_1 _ _ _ Hx).
  - destruct (steps_to_no_refresh _ _ _ H Hi) as (-> & _). exact Hs.
Qed.

(** The counters stay in range in every state the loop can be in. *)
Lemma reachable_ranges (s : run_state) :
  reachable s ->
  1 <= every_x s /\ 0 <= self_i (self s) < every_x s /\ 0 <= i s < n_fps_frames.
Proof.
  induction 1 as [oq pf D | s frame s' Hr IH Hstep].
  - simpl. unfold n_fps_frames. lia.
  - destruct IH as (Hx & Hp & Hi).
    pose proof (steps_to_stride_ge_1 _ _ _ Hstep Hx) as Hx'.
    destruct (steps_to_display _ _ _ Hstep) as (_ & Hp').
    pose proof (steps_to_window _ _ _ Hstep) as Hi'.
    rewrite Hp', Hi'. unfold n_fps_frames in *.
    pose proof (Z.mod_pos_bound (self_i (self s) + 1) (every_x s') ltac:(lia)).
    pose proof (Z.mod_pos_bound (i s + 1) 10 ltac:(lia)).
    lia.
Qed.

(** *** The decimation phase over a window of constant stride *)

(** Frames still to come before the next one that is displayed. *)
Lemma phase_advance (st p : Z) :
  1 <= st -> 0 <= p < st ->
  (- ((p + 1) mod st)) mod st = if p =? 0 then st - 1 else (- p) mod st - 1.
Proof.
  intros Hst Hp. destruct (Z.eqb_spec p 0) as [-> | Hne].
  - destruct (Z.eq_dec st 1) as [-> | H1]; [reflexivity |].
    rewrite (Z.mod_small (0 + 1) st) by lia.
    replace (- (0 + 1)) with (st - 1 + (-1) * st) by lia.
    rewrite Z.mod_add by lia. apply Z.mod_small. lia.
  - replace (- p) with (st - p + (-1) * st) by lia.
    rewrite Z.mod_add by lia. rewrite (Z.mod_small (st - p) st) by lia.
    destruct (Z.eq_dec (p + 1) st) as [He | Hlt].
    + rewrite He, Z.mod_same by lia. change (- 0) with 0.
      rewrite Z.mod_0_l by lia. lia.
    + rewrite (Z.mod_small (p + 1) st) by lia.
      replace (- (p + 1)) with (st - p - 1 + (-1) * st) by lia.
      rewrite Z.mod_add by lia. apply Z.mod_small. lia.
Qed.

Lemma window_count (frames : list Frame) : forall (s s' : run_state) (st : Z),
  1 <= st -> 0 <= self_i (self s) < st ->
  iterate frames s = Some s' ->
  strides frames s = replicate (S (length frames)) st ->
  0 <= self_i (self s') < st /\
  st * Z.of_nat (length (gui_queue (self s'))) - (- self_i (self s')) mod st =
  st * Z.of_nat (length (gui_queue (self s))) - (- self_i (self s)) mod st
  + Z.of_nat (length frames).
Proof.
  induction frames as [| frame rest IH]; intros s s' st Hst Hp Hit Hstr.
  - simpl in Hit. injection Hit as <-. simpl. split; [exact Hp | lia].
  - simpl in Hit, Hstr.
    destruct (body frame s) as [[[] | e] s1] eqn:Hb; [| discriminate].
    injection Hstr as Hx Hrest. simpl in Hrest.
    assert (Hx1 : every_x s1 = st).
    { destruct rest; simpl in Hrest; congruence. }
    destruct (steps_to_display frame s s1 Hb) as (Hg & Hi).
    rewrite Hx1 in Hi.
    assert (Hp1 : 0 <= self_i (self s1) < st).
    { rewrite Hi. apply Z.mod_pos_bound. lia. }
    destruct (IH s1 s' st Hst Hp1 Hit Hrest) as (Hp' & Hcount).
    split; [exact Hp' |].
    rewrite Hcount, Hi, (phase_advance st _ Hst Hp), Hg, length_app.
    destruct (Z.eqb_spec (self_i (self s)) 0) as [H0 | H0]; simpl length.
    + rewrite H0. rewrite Z.mod_0_l by lia. lia.
    + lia.
Qed.

(** *** The decimation stride *)

(** C1 (as amended): when the window completes, the throughput estimate
    stored is the double [10 / elapsed_seconds], and the stride stored is
    [max(1, floor(q))] for the double [q] that the division of the
    estimate by the target rate yields -- [q] is truncated, not rounded to
    the nearest integer: from 1 on, the stride is the integer part of [q],
    and it is 1 when [q] is below 1. *)
Theorem refreshed_stride_truncates frame (s s' : run_state) :
  steps_to s frame s' -> i s = n_fps_frames - 1 ->
  exists rate q,
    py_truediv (PyInt n_fps_frames)
               (PyFloat (total_seconds (now (clock_reads s) - previous_time s))) = Ok rate /\
    current_framerate s' = PyFloat rate /\
    py_truediv (current_framerate s') (gui_framerate (self s')) = Ok q /\
    Binary64.is_finite q = true /\
    every_x s' = Z.max 1 (Qfloor (Binary64.to_Q q)) /\
    ((1 <= Binary64.to_Q q)%Q ->
     (inject_Z (every_x s') <= Binary64.to_Q q)%Q /\
     (Binary64.to_Q q < inject_Z (every_x s') + 1)%Q) /\
    ((Binary64.to_Q q < 1)%Q -> every_x s' = 1).
Proof.
  intros Hstep Hi.
  destruct (steps_to_refresh _ _ _ Hstep Hi) as ((rate & Hrate & Hcf) & Hx & _).
  apply stride_of_returns in Hx as (q & Hq & Hfin & Hx).
  exists rate, q. split; [exact Hrate |]. split; [exact Hcf |].
  split; [exact Hq |]. split; [exact Hfin |]. split; [exact Hx |].
  rewrite Hx. apply floor_stride_bounds.
Qed.

(** C3: a frame is put on the display queue exactly when the phase
    counter [self.i] is zero, and the counter then advances modulo the
    stride in force; hence over any [st] consecutive iterations during
    which the stride is [st], exactly one frame is put on the display
    queue. *)
Theorem display_decimation :
  (forall (s : run_state) frame s',
     steps_to s frame s' ->
     gui_queue (self s') =
       gui_queue (self s) ++ (if self_i (self s) =? 0 then [swapaxes frame] else []) /\
     self_i (self s') = (self_i (self s) + 1) mod every_x s') /\
  (forall (s : run_state) frames s' st,
     reachable s ->
     iterate frames s = Some s' ->
     strides frames s = replicate (S (length frames)) st ->
     Z.of_nat (length frames) = st ->
     length (gui_queue (self s')) = S (length (gui_queue (self s)))).
Proof.
  split.
  - intros s frame s'. apply steps_to_display.
  - intros s frames s' st Hr Hit Hstr Hlen.
    destruct (reachable_ranges _ Hr) as (Hx & Hp & _).
    assert (Hst : every_x s = st) by (destruct frames; simpl in Hstr; congruence).
    rewrite Hst in Hx, Hp.
    destruct (window_count frames s s' st Hx Hp Hit Hstr) as (Hp' & Hcount).
    pose proof (Z.mod_pos_bound (- self_i (self s)) st ltac:(lia)).
    pose proof (Z.mod_pos_bound (- self_i (self s')) st ltac:(lia)).
    nia.
Qed.

(** *** The loop *)

(** The bookkeeping completes when lines 70-71 return. *)
Lemma bookkeep_completes frame (s : run_state) :
  refresh_returns (gui_framerate (self s)) (now (clock_reads s) - previous_time s) = true ->
  exists s', bookkeep frame s = (Ok tt, s').
Proof.
  unfold refresh_returns. intros H.
  destruct (py_truediv _ _) as [rate |] eqn:Hrate; [| discriminate].
  destruct (stride_of _ _) as [k |] eqn:Hk; [| discriminate].
  unfold bookkeep. unfold_run. cbn.
  destruct (i s =? 10 - 1); cbn; rewrite ?Hrate; cbn; rewrite ?Hk; cbn;
    repeat (case_match; cbn); eauto.
Qed.

(** Off the window boundary it always completes. *)
Lemma bookkeep_completes_inside frame (s : run_state) :
  i s <> n_fps_frames - 1 -> exists s', bookkeep frame s = (Ok tt, s').
Proof.
  intros Hi. apply Z.eqb_neq in Hi.
  unfold bookkeep. unfold_run. cbn. cbn in Hi. rewrite Hi.
  repeat (case_match; cbn); eauto.
Qed.

(** The display queue only ever grows. *)
Lemma bookkeep_gui_queue frame (s : run_state) :
  exists l, gui_queue (self (snd (bookkeep frame s))) = gui_queue (self s) ++ l.
Proof.
  unfold bookkeep. exec;
    first [ by exists [] ; rewrite app_nil_r | by eexists ].
Qed.

Lemma body_gui_queue frame (s : run_state) :
  exists l, gui_queue (self (snd (body frame s))) = gui_queue (self s) ++ l.
Proof.
  rewrite body_split. destruct (process frame s) as [[[] | e] s1] eqn:Hp.
  - destruct (process_fields _ _ _ _ Hp) as (<- & _). apply bookkeep_gui_queue.
  - destruct (process_fields _ _ _ _ Hp) as (<- & _). exists []. by rewrite app_nil_r.
Qed.

Lemma loop_gui_queue (gets : list (option Frame)) : forall s : run_state,
  exists l, gui_queue (self (snd (loop gets s))) = gui_queue (self s) ++ l.
Proof.
  induction gets as [| [frame |] rest IH]; intros s;
    try (exists []; by rewrite app_nil_r).
  simpl. destruct (body_gui_queue frame s) as (l1 & H1).
  destruct (body frame s) as [[[] | e] s1]; simpl in H1.
  - destruct (IH s1) as (l2 & H2). exists (l1 ++ l2). by rewrite H2, H1, app_assoc.
  - destruct e; simpl; by exists l1.
Qed.

(** The body, with a processing function and an output queue in place. *)
Lemma body_processing frame (s : run_state) f :
  processing_function (self s) = Some f -> is_Some (output_queue (self s)) ->
  let r := body frame s in
  calls (snd r) = calls s ++ [frame] /\
  processing_function (self (snd r)) = Some f /\
  is_Some (output_queue (self (snd r))) /\
  (fst r = Raise Empty -> f frame = Raise Empty).
Proof.
  intros Hf [oq Hq]. cbv zeta. rewrite body_split.
  destruct (f frame) as [y | e] eqn:Hy.
  - rewrite (process_returns _ _ _ _ _ Hf Hq Hy).
    match goal with |- context [bookkeep frame ?t] => set (s1 := t) end.
    destruct (bookkeep_processing frame s1) as (Hpf & Hoq & Hc & _).
    rewrite Hpf, Hoq, Hc. subst s1. cbn. rewrite Hf. repeat split; eauto.
    intros He. destruct (bookkeep frame _) as [[[] | e] s2] eqn:Hb; [done |].
    apply bookkeep_raises in Hb. simpl in He. injection He as ->.
    destruct Hb as [? | [? | ?]]; discriminate.
  - rewrite (process_raises _ _ _ _ _ Hf Hq Hy). cbn. rewrite Hf, Hq.
    repeat split; eauto. congruence.
Qed.


Lemma steps_to_clock_synced frame (s s' : run_state) :
  steps_to s frame s' -> clock_synced s -> clock_synced s'.
Proof.
  intros H (Hc & Ht). destruct (Z.eq_dec (i s) (n_fps_frames - 1)) as [Hi | Hi].
  - destruct (steps_to_refresh _ _ _ H Hi) as (_ & _ & Ht' & Hc').
    split; [lia |]. rewrite Hc', Ht'. reflexivity.
  - destruct (steps_to_no_refresh _ _ _ H Hi) as (_ & Ht' & Hc' & _).
    split; [lia |]. rewrite Hc', Ht'. exact Ht.
Qed.



(** C6: when the wait on the frame queue expires the loop is left
    through [break] after printing [empty_queue]: the run ends in
    [EndOfStream] with the state otherwise as it was, whatever the queue
    would have delivered later is never fetched, and [Empty] never escapes
    the run. *)
Theorem starvation_ends_the_run :
  (forall (s : run_state) rest,
     loop (None :: rest) s = (EndOfStream, set_stdout (stdout s ++ ["empty_queue"%string]) s)) /\
  (forall (s : run_state),
     loop [] s = (EndOfStream, set_stdout (stdout s ++ ["empty_queue"%string]) s)) /\
  (forall (d : FrameDispatcher) (frames : list Frame) rest,
     run d (map Some frames ++ None :: rest) = run d (map Some frames)) /\
  (forall (d : FrameDispatcher) gets, fst (run d gets) <> Crashed Empty).
Proof.
  split; [reflexivity |]. split; [reflexivity |]. split.
  - intros d frames rest. unfold run. generalize (enter d).
    induction frames as [| frame more IH]; intros s; [reflexivity |].
    simpl. destruct (body frame s) as [[[] | e] s1]; [apply IH | reflexivity].
  - intros d gets. unfold run. generalize (enter d).
    induction gets as [| [frame |] more IH]; intros s; try done.
    simpl. destruct (body frame s) as [[[] | e] s1]; [apply IH |].
    destruct e; done.
Qed.

(** *** With and without processing *)

Lemma on_empty_bookkeeping (s t : run_state) :
  bookkeeping s = bookkeeping t ->
  bookkeeping (snd (on_empty s)) = bookkeeping (snd (on_empty t)).
Proof. unfold bookkeeping. cbn. intros H. injection H as -> -> -> -> -> -> -> -> ->. done. Qed.

Lemma loop_simulation (gets : list (option Frame)) :
  forall (s t : run_state) (f : Frame -> outcome Result),
  processing_function (self s) = None ->
  processing_function (self t) = Some f -> is_Some (output_queue (self t)) ->
  bookkeeping s = bookkeeping t ->
  (forall x, Some x ∈ gets -> exists y, f x = Ok y) ->
  fst (loop gets s) = fst (loop gets t) /\
  bookkeeping (snd (loop gets s)) = bookkeeping (snd (loop gets t)).
Proof.
  induction gets as [| [frame |] rest IH]; intros s t f Hs Hf [oq Hq] Hk Hok;
    try (split; [reflexivity | by apply on_empty_bookkeeping]).
  destruct (Hok frame ltac:(by left)) as (y & Hy).
  simpl. rewrite !body_split, (process_unconfigured _ _ Hs).
  pose proof (process_returns _ _ _ _ _ Hf Hq Hy) as Hp. rewrite Hp.
  match type of Hp with _ = (_, ?u) => set (t1 := u) in * end.
  assert (Hk1 : bookkeeping s = bookkeeping t1).
  { rewrite Hk. destruct (process_bookkeeping frame t) as (Hb & _).
    rewrite Hp in Hb. symmetry. exact Hb. }
  destruct (bookkeep_simulation frame s t1 Hk1) as (Hfst & Hsnd).
  destruct (bookkeep_processing frame s) as (Hs' & _).
  destruct (bookkeep_processing frame t1) as (Hf' & Hq' & _).
  destruct (bookkeep frame s) as [[[] | e] s'] eqn:Hbs;
    destruct (bookkeep frame t1) as [[[] | e'] t'] eqn:Hbt;
    simpl in Hfst, Hsnd, Hs', Hf', Hq'; try discriminate.
  - apply (IH s' t' f).
    + rewrite Hs'. exact Hs.
    + rewrite Hf'. subst t1. cbn. exact Hf.
    + rewrite Hq'. subst t1. cbn. eauto.
    + exact Hsnd.
    + intros x Hx. apply Hok. by right.
  - injection Hfst as ->.
    destruct e'; (split; [reflexivity |]); first [exact Hsnd | by apply on_empty_bookkeeping].
Qed.

(** X28: the processing step is skipped, and cannot fail, when no
    processing function is configured (whether or not an output queue was
    given); and a dispatcher without a processing function puts the same
    frames on the display queue, ends the same way and leaves the
    decimation counters in the same state as one that has a processing
    function with an output queue attached, for every sequence of queue
    reads on whose frames the function returns. *)
Theorem display_independent_of_processing (d d' : FrameDispatcher)
    (f : Frame -> outcome Result) (gets : list (option Frame)) :
  processing_function d = None ->
  processing_function d' = Some f -> is_Some (output_queue d') ->
  gui_queue d = gui_queue d' -> self_i d = self_i d' ->
  gui_framerate d = gui_framerate d' ->
  (forall x, Some x ∈ gets -> exists y, f x = Ok y) ->
  (forall frame (s : run_state),
     processing_function (self s) = None -> process frame s = (Ok tt, s)) /\
  fst (run d gets) = fst (run d' gets) /\
  gui_queue (self (snd (run d gets))) = gui_queue (self (snd (run d' gets))) /\
  self_i (self (snd (run d gets))) = self_i (self (snd (run d' gets))) /\
  every_x (snd (run d gets)) = every_x (snd (run d' gets)).
Proof.
  intros Hd Hf Hq Hg Hi HD Hok.
  split; [intros frame s; apply process_unconfigured |].
  assert (Hk : bookkeeping (enter d) = bookkeeping (enter d')).
  { unfold bookkeeping. cbn. rewrite Hg, Hi, HD. reflexivity. }
  destruct (loop_simulation gets (enter d) (enter d') f Hd Hf Hq Hk Hok) as (Hfst & Hsnd).
  unfold run. split; [exact Hfst |].
  unfold bookkeeping in Hsnd. injection Hsnd as H1 H2 _ _ _ _ H7 _ _. done.
Qed.

(** *** The first window *)

Lemma iterate_first_window (frames : list Frame) : forall (s s' : run_state),
  0 <= i s -> i s + Z.of_nat (length frames) <= n_fps_frames - 1 ->
  iterate frames s = Some s' ->
  every_x s' = every_x s /\ i s' = i s + Z.of_nat (length frames).
Proof.
  unfold n_fps_frames.
  induction frames as [| frame rest IH]; intros s s' H0 Hlen Hit.
  - simpl in *. injection Hit as <-. lia.
  - simpl in Hit, Hlen.
    destruct (body frame s) as [[[] | e] s1] eqn:Hb; [| discriminate].
    destruct (steps_to_no_refresh frame s s1 Hb) as (Hx & _).
    { unfold n_fps_frames. lia. }
    pose proof (steps_to_window frame s s1 Hb) as Hi. unfold n_fps_frames in Hi.
    rewrite Z.mod_small in Hi by lia.
    destruct (IH s1 s') as (Hx' & Hi'); [lia | lia | exact Hit |].
    rewrite Hx', Hi', Hx, Hi. simpl length. lia.
Qed.

(** C10 (as amended): the phase counter starts at zero, so for every
    target display rate the first frame fetched is the first one put on
    the display queue -- provided the processing step of the first
    iteration completes (no processing function, or one that returns on
    that frame with an output queue attached); and whatever the target
    rate, the stride is still 10 after each of the first nine iterations. *)
Theorem first_frame_is_displayed (has_output_queue : bool)
    (pf : option (Frame -> outcome Result)) (D : py_num) (frame : Frame)
    (rest : list (option Frame)) :
  (forall f, pf = Some f -> has_output_queue = true /\ exists y, f frame = Ok y) ->
  self_i (FrameDispatcher_init has_output_queue pf D) = 0 /\
  (exists tail,
     gui_queue (self (snd (run (FrameDispatcher_init has_output_queue pf D)
                               (Some frame :: rest)))) = swapaxes frame :: tail) /\
  (forall frames s',
     (length frames <= 9)%nat ->
     iterate frames (enter (FrameDispatcher_init has_output_queue pf D)) = Some s' ->
     every_x s' = 10).
Proof.
  intros Hpf. split; [reflexivity |]. split.
  - set (d := FrameDispatcher_init has_output_queue pf D).
    assert (Hp : exists s1, process frame (enter d) = (Ok tt, s1)).
    { destruct pf as [f |] eqn:E.
      - destruct (Hpf f eq_refl) as (-> & y & Hy).
        eexists. eapply process_returns; eauto; reflexivity.
      - eexists. apply process_unconfigured. reflexivity. }
    destruct Hp as (s1 & Hp).
    destruct (process_fields _ _ _ _ Hp) as (Hg & Hi & _ & _ & Hw & _).
    destruct (bookkeep_completes_inside frame s1) as (s2 & Hb).
    { rewrite Hw. simpl. unfold n_fps_frames. lia. }
    destruct (bookkeep_display _ _ _ Hb) as (Hg2 & _).
    rewrite Hg, Hi in Hg2. simpl in Hg2.
    unfold run. simpl. rewrite body_split, Hp, Hb.
    destruct (loop_gui_queue rest s2) as (l & Hl).
    exists l. rewrite Hl, Hg2. reflexivity.
  - intros frames s' Hlen Hit.
    apply (iterate_first_window frames) in Hit as (Hx & _).
    + exact Hx.
    + simpl. lia.
    + simpl. unfold n_fps_frames. lia.
Qed.

End Dispatcher_facts.

(** ** The frame source *)

Section Camera_facts.

Context {Frame : Type}.

Local Abbreviation XimeaCamera := (@XimeaCamera Frame).
Local Abbreviation world := (@world Frame).

(** *** Applying an update *)

Lemma apply_gain_fields (u : gmap string py_num) (dev : Device) :
  exposure (apply_gain u dev) = exposure dev /\
  gain (apply_gain u dev) = match u !! "gain"%string with
                            | Some g => g
                            | None => gain dev
                            end /\
  images_read (apply_gain u dev) = images_read dev.
Proof. unfold apply_gain. case_match; done. Qed.

(** An update that is applied: each named parameter is set, the others
    are kept. *)
Lemma apply_control_returns (u : gmap string py_num) (dev dev' : Device) :
  apply_control u dev = Ok dev' ->
  match u !! "exposure"%string with
  | Some v => exposure_units v = Ok (exposure dev')
  | None => exposure dev' = exposure dev
  end /\
  gain dev' = match u !! "gain"%string with
              | Some g => g
              | None => gain dev
              end /\
  images_read dev' = images_read dev.
Proof.
  unfold apply_control, and_then.
  destruct (u !! "exposure"%string) as [v |].
  - destruct (exposure_units v) as [n | e]; [| discriminate].
    intros H. injection H as <-.
    destruct (apply_gain_fields u (set_exposure n dev)) as (-> & -> & ->). done.
  - intros H. injection H as <-.
    destruct (apply_gain_fields u dev) as (-> & -> & ->). done.
Qed.

(** An update raises only in the conversion of its exposure. *)
Lemma apply_control_raises (u : gmap string py_num) (dev : Device) (e : py_exn) :
  apply_control u dev = Raise e ->
  exists v, u !! "exposure"%string = Some v /\ exposure_units v = Raise e.
Proof.
  unfold apply_control, and_then.
  destruct (u !! "exposure"%string) as [v |]; [| discriminate].
  destruct (exposure_units v) as [n | e'] eqn:E; [discriminate |].
  intros H. injection H as <-. eauto.
Qed.

(** Whether and how an update is applied does not depend on the device
    it is applied to. *)
Lemma apply_control_device (u : gmap string py_num) (dev dev' : Device) :
  match apply_control u dev with
  | Ok d => exists d', apply_control u dev' = Ok d' /\
                       (exposure dev = exposure dev' -> exposure d = exposure d') /\
                       (gain dev = gain dev' -> gain d = gain d')
  | Raise e => apply_control u dev' = Raise e
  end.
Proof.
  unfold apply_control, and_then, apply_gain.
  destruct (u !! "exposure"%string) as [v |]; [destruct (exposure_units v) as [n | e] |];
    try reflexivity; eexists; (split; [reflexivity |]);
    destruct (u !! "gain"%string); simpl; auto.
Qed.


(** *** The poll *)

Lemma poll_control_frame (c : XimeaCamera) :
  q (snd (poll_control c)) = q c /\ signal (snd (poll_control c)) = signal c /\
  images_read (cam (snd (poll_control c))) = images_read (cam c).
Proof.
  unfold poll_control. destruct (control_queue c) as [[| u rest] |]; [done | | done].
  simpl. destruct (apply_control u (cam c)) as [dev |] eqn:E; [| done].
  apply apply_control_returns in E as (_ & _ & E). simpl. done.
Qed.

Lemma poll_control_head (c : XimeaCamera) u rest :
  control_queue c = Some (u :: rest) ->
  control_queue (snd (poll_control c)) = Some rest /\
  match apply_control u (cam c) with
  | Ok dev => fst (poll_control c) = Ok tt /\ cam (snd (poll_control c)) = dev
  | Raise e => fst (poll_control c) = Raise e /\ cam (snd (poll_control c)) = cam c
  end.
Proof.
  intros H. unfold poll_control. rewrite H. simpl.
  destruct (apply_control u (cam c)); done.
Qed.

Lemma poll_control_idle (c : XimeaCamera) :
  control_queue c = None \/ control_queue c = Some [] -> poll_control c = (Ok tt, c).
Proof. intros [H | H]; unfold poll_control; by rewrite H. Qed.


(** *** One iteration *)

Lemma camera_iteration_stops (w : world) (c : XimeaCamera) :
  signal c || set_event w = true ->
  camera_iteration w c =
    (match fst (poll_control (receive w c)) with
     | Ok _ => Breaks
     | Raise e => Raises e
     end, snd (poll_control (receive w c))).
Proof.
  intros H. unfold camera_iteration.
  destruct (poll_control_frame (receive w c)) as (_ & Hs & _).
  destruct (poll_control (receive w c)) as [[[] | e] c1]; [| reflexivity].
  simpl in Hs |- *. by rewrite Hs, H.
Qed.

Lemma camera_iteration_captures (w : world) (c : XimeaCamera) :
  signal c = false -> set_event w = false ->
  camera_iteration w c =
    match fst (poll_control (receive w c)) with
    | Ok _ => (Continues, capture (image w) (snd (poll_control (receive w c))))
    | Raise e => (Raises e, snd (poll_control (receive w c)))
    end.
Proof.
  intros Hs Hw. unfold camera_iteration.
  destruct (poll_control_frame (receive w c)) as (_ & Hsig & _).
  destruct (poll_control (receive w c)) as [[[] | e] c1]; [| reflexivity].
  simpl in Hsig |- *. by rewrite Hsig, Hs, Hw.
Qed.

(** What one iteration does to the frame queue: it goes round again
    exactly when it has put its image on the queue. *)
Lemma camera_iteration_frames (w : world) (c : XimeaCamera) :
  (fst (camera_iteration w c) = Continues /\
   signal (snd (camera_iteration w c)) = false /\
   q (snd (camera_iteration w c)) = q c ++ [image w] /\
   images_read (cam (snd (camera_iteration w c))) = S (images_read (cam c))) \/
  (fst (camera_iteration w c) <> Continues /\
   (fst (camera_iteration w c) = Breaks -> signal (snd (camera_iteration w c)) = true) /\
   q (snd (camera_iteration w c)) = q c /\
   images_read (cam (snd (camera_iteration w c))) = images_read (cam c)).
Proof.
  unfold camera_iteration.
  destruct (poll_control_frame (receive w c)) as (Hq & Hs & Hn).
  destruct (poll_control (receive w c)) as [[[] | e] c1]; simpl in Hq, Hs, Hn |- *.
  - destruct (signal c1) eqn:E; simpl.
    + right. rewrite Hq, Hn. done.
    + left. rewrite E, Hq, Hn. done.
  - right. rewrite Hq, Hn. done.
Qed.





(** C8: a parameter that the dequeued update does not name keeps its
    value: without an [exposure] key the exposure is unchanged, without
    a [gain] key the gain is unchanged. *)
Theorem unnamed_parameters_unchanged (c : XimeaCamera) (u : gmap string py_num)
    (rest : list (gmap string py_num)) :
  control_queue c = Some (u :: rest) ->
  (u !! "exposure"%string = None ->
   exposure (cam (snd (poll_control c))) = exposure (cam c)) /\
  (u !! "gain"%string = None ->
   gain (cam (snd (poll_control c))) = gain (cam c)).
Proof.
  intros H. destruct (poll_control_head c u rest H) as (_ & Hcam).
  destruct (apply_control u (cam c)) as [dev | e] eqn:E.
  - destruct Hcam as (_ & ->).
    apply apply_control_returns in E as (He & Hg & _).
    split; intros Hk; [rewrite Hk in He | rewrite Hk in Hg]; assumption.
  - destruct Hcam as (_ & ->). done.
Qed.

(** *** The exposure *)

Lemma exposure_units_int (n : Z) : exposure_units (PyInt n) = Ok (n * 1000).
Proof. reflexivity. Qed.

Lemma exposure_units_float (x : spec_float) :
  exposure_units (PyFloat x) = py_int (PyFloat (Binary64.mul x (Binary64.of_Z 1000))).
Proof. reflexivity. Qed.

Lemma exposure_units_raises (v : py_num) (e : py_exn) :
  exposure_units v = Raise e -> e = OverflowError \/ e = ValueError.
Proof.
  destruct v as [n | x]; [discriminate |]. rewrite exposure_units_float.
  destruct (Binary64.mul x _); unfold py_int; intros H; simplify_eq; auto.
Qed.

(** C9 (as amended): the exposure passed to the device is
    [int(v * 1000)].  For an [int] that is [v * 1000] itself.  For a
    [float] the product is a double [p], and the device is given [p]
    truncated toward zero to an integer (so [p] itself exactly when [p] is
    a whole number); when [p] is an infinity or a NaN the conversion
    raises and the device is not touched. *)
Theorem exposure_is_truncated_milliseconds (u : gmap string py_num) (v : py_num)
    (dev : Device) :
  u !! "exposure"%string = Some v ->
  (forall n : Z, v = PyInt n ->
     exists dev', apply_control u dev = Ok dev' /\ exposure dev' = n * 1000) /\
  (forall x : spec_float, v = PyFloat x ->
     let p := Binary64.mul x (Binary64.of_Z 1000) in
     (Binary64.is_finite p = true ->
      exists dev',
        apply_control u dev = Ok dev' /\
        exposure dev' = Qtruncate (Binary64.to_Q p) /\
        ((0 <= Binary64.to_Q p)%Q ->
         (inject_Z (exposure dev') <= Binary64.to_Q p)%Q /\
         (Binary64.to_Q p < inject_Z (exposure dev') + 1)%Q) /\
        ((Binary64.to_Q p <= 0)%Q ->
         (inject_Z (exposure dev') - 1 < Binary64.to_Q p)%Q /\
         (Binary64.to_Q p <= inject_Z (exposure dev'))%Q) /\
        (forall n : Z, (Binary64.to_Q p == inject_Z n)%Q -> exposure dev' = n)) /\
     (Binary64.is_finite p = false ->
      exists e, apply_control u dev = Raise e /\ (e = OverflowError \/ e = ValueError))).
Proof.
  intros H. split.
  - intros n ->. unfold apply_control, and_then. rewrite H, exposure_units_int.
    eexists. split; [reflexivity |]. apply apply_gain_fields.
  - intros x -> p. split.
    + intros Hfin. unfold apply_control, and_then.
      rewrite H, exposure_units_float. fold p. rewrite (py_int_finite p Hfin).
      eexists. split; [reflexivity |].
      destruct (apply_gain_fields u (set_exposure (Qtruncate (Binary64.to_Q p)) dev))
        as (-> & _). simpl.
      split; [reflexivity |]. split; [apply Qtruncate_nonneg_bounds |].
      split; [apply Qtruncate_nonpos_bounds | apply Qtruncate_inject_Z].
    + intros Hinf. unfold apply_control, and_then.
      rewrite H, exposure_units_float. fold p.
      destruct p; try discriminate; unfold py_int; eauto.
Qed.

(** *** The control queue *)

(** C4 (as amended): the control queue is first-in first-out and each
    iteration takes one entry.  Of two updates submitted before a poll,
    that poll applies the older one and leaves the newer one queued; the
    poll of the next iteration applies the newer one on top of it.  Both
    take effect, in submission order (each being an update that the
    conversion of line 28 accepts). *)
Theorem control_updates_applied_in_order (c : XimeaCamera) (w1 w2 : world)
    (u1 u2 : gmap string py_num) (dev1 dev2 : Device) :
  control_queue c = Some [] -> signal c = false ->
  submitted w1 = [u1; u2] -> set_event w1 = false ->
  submitted w2 = [] -> set_event w2 = false ->
  apply_control u1 (cam c) = Ok dev1 -> apply_control u2 dev1 = Ok dev2 ->
  exposure (cam (snd (camera_loop [w1] c))) = exposure dev1 /\
  gain (cam (snd (camera_loop [w1] c))) = gain dev1 /\
  control_queue (snd (camera_loop [w1] c)) = Some [u2] /\
  exposure (cam (snd (camera_loop [w1; w2] c))) = exposure dev2 /\
  gain (cam (snd (camera_loop [w1; w2] c))) = gain dev2 /\
  control_queue (snd (camera_loop [w1; w2] c)) = Some [].
Proof.
  intros Hq Hs Hw1 He1 Hw2 He2 Hu1 Hu2. simpl.
  rewrite (camera_iteration_captures w1 c Hs He1).
  assert (H1 : control_queue (receive w1 c) = Some (u1 :: [u2])).
  { simpl. rewrite Hq, Hw1. reflexivity. }
  destruct (poll_control_head _ _ _ H1) as (Hq1 & Hcam1).
  change (cam (receive w1 c)) with (cam c) in Hcam1. rewrite Hu1 in Hcam1.
  destruct Hcam1 as (Hok1 & Hcam1). rewrite Hok1.
  set (c1 := capture (image w1) (snd (poll_control (receive w1 c)))).
  assert (Hs1 : signal c1 = false).
  { subst c1. simpl. destruct (poll_control_frame (receive w1 c)) as (_ & -> & _).
    simpl. by rewrite Hs, He1. }
  assert (Hc1 : exposure (cam c1) = exposure dev1 /\ gain (cam c1) = gain dev1 /\
                control_queue c1 = Some [u2]).
  { subst c1. simpl. rewrite Hcam1, Hq1. done. }
  destruct Hc1 as (Hx1 & Hg1 & Hcq1).
  split; [exact Hx1 |]. split; [exact Hg1 |]. split; [exact Hcq1 |].
  rewrite (camera_iteration_captures w2 c1 Hs1 He2).
  assert (H2 : control_queue (receive w2 c1) = Some [u2]).
  { unfold receive. cbn [control_queue]. rewrite Hcq1, Hw2. reflexivity. }
  destruct (poll_control_head _ _ _ H2) as (Hq2 & Hcam2).
  change (cam (receive w2 c1)) with (cam c1) in Hcam2.
  pose proof (apply_control_device u2 dev1 (cam c1)) as Hdev. rewrite Hu2 in Hdev.
  destruct Hdev as (d' & Hd' & Hxd & Hgd). rewrite Hd' in Hcam2.
  destruct Hcam2 as (Hok2 & Hcam2). rewrite Hok2. simpl.
  rewrite Hcam2, Hq2, <- Hxd, <- Hgd by congruence. done.
Qed.

End Camera_facts.

(** ** The pipeline on concrete inputs *)

(** C1, as the design document states it, fails: at 50 frames/s against
    a target of 30 the quotient 5/3 rounds to 2, but the stride stored is
    [int(50.0 / 30) = 1]. *)
Lemma stride_is_not_rounded :
  current_framerate
    (snd (run ex_swapaxes clock_50fps ex_plain (map Some (ex_frames 10))))
    = PyFloat (Binary64.of_Z 50) /\
  every_x (snd (run ex_swapaxes clock_50fps ex_plain (map Some (ex_frames 10)))) = 1 /\
  spec_stride
    (py_value
       (current_framerate
          (snd (run ex_swapaxes clock_50fps ex_plain (map Some (ex_frames 10))))))
    (py_value
       (gui_framerate
          (self (snd (run ex_swapaxes clock_50fps ex_plain (map Some (ex_frames 10)))))))
    = 2.
Proof. vm_compute. repeat split. Qed.

Lemma refreshed_stride_truncates_witness :
  every_x (snd (body ex_swapaxes clock_50fps (ex_frame 10)
                  (ex_state_after clock_50fps ex_plain (ex_frames 9)))) = 1.
Proof.
  destruct (refreshed_stride_truncates ex_swapaxes clock_50fps (ex_frame 10)
    (ex_state_after clock_50fps ex_plain (ex_frames 9))
    (snd (body ex_swapaxes clock_50fps (ex_frame 10)
            (ex_state_after clock_50fps ex_plain (ex_frames 9))))
    ltac:(vm_compute; reflexivity) ltac:(vm_compute; reflexivity))
    as (rate & q & _ & _ & Hq & _ & Hx & _).
  rewrite Hx. vm_compute in Hq. injection Hq as <-. vm_compute. reflexivity.
Defined.


Lemma display_decimation_witness :
  length (gui_queue (self (ex_state_after clock_300fps ex_plain (ex_frames 10)))) = 1%nat.
Proof.
  apply (proj2 (display_decimation ex_swapaxes clock_300fps)
           (enter clock_300fps ex_plain) (ex_frames 10)
           (ex_state_after clock_300fps ex_plain (ex_frames 10)) 10).
  - apply reachable_enter.
  - vm_compute. reflexivity.
  - vm_compute. reflexivity.
  - reflexivity.
Defined.

(** C5: with a processing function configured but no output queue (the
    default of the constructor), looking up [put] on the missing queue
    raises [AttributeError]: the processing step is not a no-op, the run
    ends on the first frame and nothing is displayed, whereas with the
    queue attached, and without a processing function, that frame is
    displayed. *)
Lemma missing_sink_is_not_a_no_op :
  fst (process (ex_frame 1) (enter clock_300fps ex_no_sink)) = Raise AttributeError /\
  fst (run ex_swapaxes clock_300fps ex_no_sink [Some (ex_frame 1)])
    = Crashed AttributeError /\
  gui_queue (self (snd (run ex_swapaxes clock_300fps ex_no_sink [Some (ex_frame 1)])))
    = [] /\
  gui_queue (self (snd (run ex_swapaxes clock_300fps ex_attached [Some (ex_frame 1)])))
    = [(1%nat, true)] /\
  gui_queue (self (snd (run ex_swapaxes clock_300fps ex_plain [Some (ex_frame 1)])))
    = [(1%nat, true)].
Proof. vm_compute. repeat split. Qed.

Lemma display_independent_of_processing_witness :
  gui_queue (self (snd (run ex_swapaxes clock_300fps ex_plain
                          (map Some (ex_frames 25))))) =
  gui_queue (self (snd (run ex_swapaxes clock_300fps ex_attached
                          (map Some (ex_frames 25))))).
Proof.
  refine (proj1 (proj2 (proj2
    (display_independent_of_processing ex_swapaxes clock_300fps ex_plain ex_attached
       ex_double (map Some (ex_frames 25)) eq_refl eq_refl _ eq_refl eq_refl eq_refl _)))).
  - simpl. eauto.
  - intros x _. eexists. reflexivity.
Defined.

Lemma starvation_after_five_frames :
  run ex_swapaxes clock_300fps ex_plain (map Some (ex_frames 5) ++ [None; Some (ex_frame 6)])
  = run ex_swapaxes clock_300fps ex_plain (map Some (ex_frames 5)) /\
  fst (run ex_swapaxes clock_300fps ex_plain (map Some (ex_frames 5))) = EndOfStream /\
  stdout (snd (run ex_swapaxes clock_300fps ex_plain (map Some (ex_frames 5))))
    = ["empty_queue"%string].
Proof. vm_compute. repeat split. Qed.

(** C10, as stated for every configuration, fails: the processing step
    comes before the display step, so when it raises on the first frame
    (no output queue, or a processing function that raises) that frame is
    never displayed. *)
Lemma first_frame_lost_when_processing_raises :
  gui_queue (self (snd (run ex_swapaxes clock_300fps ex_no_sink (map Some (ex_frames 3)))))
    = [] /\
  fst (run ex_swapaxes clock_300fps ex_no_sink (map Some (ex_frames 3)))
    = Crashed AttributeError /\
  gui_queue (self (snd (run ex_swapaxes clock_300fps ex_raising (map Some (ex_frames 3)))))
    = [] /\
  fst (run ex_swapaxes clock_300fps ex_raising (map Some (ex_frames 3)))
    = Crashed OtherError.
Proof. vm_compute. repeat split. Qed.

Lemma first_frame_is_displayed_witness :
  exists tail,
    gui_queue (self (snd (run ex_swapaxes clock_300fps
                            (FrameDispatcher_init true (Some ex_double) (PyInt 0))
                            (Some (ex_frame 1) :: map Some (ex_frames 11)))))
    = ex_swapaxes (ex_frame 1) :: tail.
Proof.
  refine (proj1 (proj2
    (first_frame_is_displayed ex_swapaxes clock_300fps true (Some ex_double) (PyInt 0)
       (ex_frame 1) (map Some (ex_frames 11)) _))).
  intros f Hf. injection Hf as <-. split; [reflexivity |]. eexists. reflexivity.
Defined.

(** C4, as the design document states it, fails: with [{'exposure': 0.01}]
    and then [{'gain': 4}] submitted before a poll, that poll applies the
    older update (exposure 10) and not the newer (the gain stays 0), and
    after the next poll both are in force, whereas last-write-wins would
    leave the exposure at 1000. *)
Lemma control_queue_is_not_last_write_wins :
  exposure (cam (snd (camera_loop [ex_two_updates 1] ex_camera))) = 10 /\
  gain (cam (snd (camera_loop [ex_two_updates 1] ex_camera))) = PyInt 0 /\
  exposure (cam (snd (camera_loop [ex_two_updates 1; ex_idle 2] ex_camera))) = 10 /\
  gain (cam (snd (camera_loop [ex_two_updates 1; ex_idle 2] ex_camera))) = PyInt 4 /\
  exists dev,
    spec_poll_last_write_wins [ex_update_exposure; ex_update_gain] (cam ex_camera) = Ok dev /\
    exposure dev = 1000.
Proof.
  split; [vm_compute; reflexivity |]. split; [vm_compute; reflexivity |].
  split; [vm_compute; reflexivity |]. split; [vm_compute; reflexivity |].
  eexists. split; vm_compute; reflexivity.
Qed.

Lemma control_updates_applied_in_order_witness :
  exposure (cam (snd (camera_loop [ex_two_updates 1; ex_idle 2] ex_camera))) = 10 /\
  gain (cam (snd (camera_loop [ex_two_updates 1; ex_idle 2] ex_camera))) = PyInt 4.
Proof.
  destruct (control_updates_applied_in_order ex_camera (ex_two_updates 1) (ex_idle 2)
       ex_update_exposure ex_update_gain
       (set_exposure 10 (cam ex_camera)) (set_gain (PyInt 4) (set_exposure 10 (cam ex_camera)))
       eq_refl eq_refl eq_refl eq_refl eq_refl eq_refl
       ltac:(vm_compute; reflexivity) ltac:(vm_compute; reflexivity))
    as (_ & _ & _ & Hx & Hg & _).
  split; [exact Hx | exact Hg].
Defined.


Lemma unnamed_parameters_unchanged_witness :
  exposure (cam (snd (poll_control (snd (camera_loop [ex_two_updates 1] ex_camera))))) =
  exposure (cam (snd (camera_loop [ex_two_updates 1] ex_camera))).
Proof.
  apply (proj1 (unnamed_parameters_unchanged
                  (snd (camera_loop [ex_two_updates 1] ex_camera)) ex_update_gain []
                  ltac:(vm_compute; reflexivity))).
  vm_compute. reflexivity.
Defined.

Example gain_update_keeps_exposure_10 :
  exposure (cam (snd (camera_loop [ex_two_updates 1; ex_idle 2] ex_camera))) = 10.
Proof. vm_compute. reflexivity. Qed.

(** C9, as stated for every value, fails: an exposure of 0.0015 s is
    1.5 ms, and the device is given 1. *)
Lemma fractional_exposure_is_truncated :
  exists dev,
    apply_control ex_update_fraction (cam ex_camera) = Ok dev /\
    exposure dev = 1 /\
    (py_value (PyFloat (Binary64.mul (Binary64.literal 15 10000) (Binary64.of_Z 1000)))
       == 3 # 2)%Q /\
    ~ (inject_Z (exposure dev)
       == py_value (PyFloat (Binary64.mul (Binary64.literal 15 10000) (Binary64.of_Z 1000))))%Q.
Proof.
  eexists. split; [vm_compute; reflexivity |]. split; [vm_compute; reflexivity |].
  split; [vm_compute; reflexivity |]. vm_compute. discriminate.
Qed.

Lemma exposure_is_truncated_milliseconds_witness :
  exists dev,
    apply_control ex_update_exposure (cam ex_camera) = Ok dev /\ exposure dev = 10.
Proof.
  destruct (proj1 (proj2
    (exposure_is_truncated_milliseconds ex_update_exposure
       (PyFloat (Binary64.literal 1 100)) (cam ex_camera)
       ltac:(vm_compute; reflexivity)) (Binary64.literal 1 100) eq_refl)
       ltac:(vm_compute; reflexivity))
    as (dev & Hdev & _ & _ & _ & Hn).
  exists dev. split; [exact Hdev |]. apply Hn. vm_compute. reflexivity.
Defined.

(** * Further properties of the dispatcher *)

Section Dispatcher_more.

Context {Frame Result : Type}.
Variable swapaxes : Frame -> Frame.
Variable now : nat -> Z.

Local Abbreviation run_state := (@run_state Frame Result).
Local Abbreviation FrameDispatcher := (@FrameDispatcher Frame Result).
Local Abbreviation body := (body swapaxes now).
Local Abbreviation bookkeep := (bookkeep swapaxes now).
Local Abbreviation loop := (loop swapaxes now).
Local Abbreviation run := (run swapaxes now).
Local Abbreviation steps_to := (steps_to swapaxes now).
Local Abbreviation iterate := (iterate swapaxes now).
Local Abbreviation strides := (strides swapaxes now).
Local Abbreviation enter := (enter now).
Local Abbreviation clock_synced := (clock_synced now).

(** *** The counters stay in range *)

Lemma bookkeep_in_range frame (s : run_state) :
  in_range s -> in_range (snd (bookkeep frame s)).
Proof.
  unfold in_range, n_fps_frames. intros (Hx & Hp & Hi).
  pose proof (Z.mod_pos_bound (i s + 1) 10 ltac:(lia)).
  unfold bookkeep. exec; fields;
    try match goal with H : stride_of _ _ = Ok _ |- _ => apply stride_of_ge_1 in H end;
    repeat split; try lia; try (apply Z.mod_pos_bound; lia).
Qed.

Lemma body_in_range frame (s : run_state) :
  in_range s -> in_range (snd (body frame s)).
Proof.
  intros H. rewrite body_split.
  destruct (process frame s) as [[[] | e] s1] eqn:Hp;
    destruct (process_fields _ _ _ _ Hp) as (_ & Hi & _ & _ & Hw & _ & Hx & _).
  - apply bookkeep_in_range. unfold in_range. rewrite Hi, Hw, Hx. exact H.
  - simpl. unfold in_range. rewrite Hi, Hw, Hx. exact H.
Qed.

Lemma loop_in_range (gets : list (option Frame)) : forall s : run_state,
  in_range s -> in_range (snd (loop gets s)).
Proof.
  induction gets as [| [frame |] rest IH]; intros s H; try exact H.
  simpl. pose proof (body_in_range frame s H) as H1.
  destruct (body frame s) as [[[] | e] s1]; simpl in H1.
  - apply IH, H1.
  - destruct e; exact H1.
Qed.

(** X1: however a run of a freshly constructed dispatcher ends (end of
    stream or exception, any configuration, any clock), it leaves the
    stride at least 1, the display phase [self.i] within [0, every_x)
    and the window counter within [0, 10); so the modulus of line 77 is
    never zero. *)
Theorem run_keeps_counters_in_range (has_output_queue : bool)
    (pf : option (Frame -> outcome Result)) (D : py_num) (gets : list (option Frame)) :
  in_range (snd (run (FrameDispatcher_init has_output_queue pf D) gets)).
Proof.
  unfold run. apply loop_in_range. unfold in_range, n_fps_frames. simpl. lia.
Qed.

(** *** Completed iterations *)

Lemma iterate_app (a b : list Frame) : forall s : run_state,
  iterate (a ++ b) s = match iterate a s with Some s1 => iterate b s1 | None => None end.
Proof.
  induction a as [| frame a IH]; intros s; [reflexivity |].
  simpl. destruct (body frame s) as [[[] | e] s1]; [apply IH | reflexivity].
Qed.

Lemma loop_iterate (a : list Frame) (rest : list (option Frame)) : forall s s' : run_state,
  iterate a s = Some s' -> loop (map Some a ++ rest) s = loop rest s'.
Proof.
  induction a as [| frame a IH]; intros s s' H.
  - simpl in H. injection H as ->. reflexivity.
  - simpl in H |- *. destruct (body frame s) as [[[] | e] s1]; [| discriminate].
    apply IH, H.
Qed.

Lemma iterate_in_range (frames : list Frame) : forall s s' : run_state,
  in_range s -> iterate frames s = Some s' -> in_range s'.
Proof.
  induction frames as [| frame rest IH]; intros s s' Hr H.
  - simpl in H. injection H as <-. exact Hr.
  - simpl in H. pose proof (body_in_range frame s Hr) as H1.
    destruct (body frame s) as [[[] | e] s1]; [| discriminate].
    exact (IH s1 s' H1 H).
Qed.

Lemma steps_to_clock_reads frame (s s' : run_state) :
  steps_to s frame s' ->
  clock_reads s' = if i s =? n_fps_frames - 1 then S (clock_reads s) else clock_reads s.
Proof.
  intros H. destruct (Z.eqb_spec (i s) (n_fps_frames - 1)) as [Hi | Hi].
  - by destruct (steps_to_refresh _ _ _ _ _ H Hi) as (_ & _ & _ & ->).
  - by destruct (steps_to_no_refresh _ _ _ _ _ H Hi) as (_ & _ & -> & _).
Qed.

Lemma iterate_window (frames : list Frame) : forall s s' : run_state,
  0 <= i s < n_fps_frames -> iterate frames s = Some s' ->
  i s' = (i s + Z.of_nat (length frames)) mod n_fps_frames /\
  Z.of_nat (clock_reads s') =
    Z.of_nat (clock_reads s) + (i s + Z.of_nat (length frames)) / n_fps_frames.
Proof.
  unfold n_fps_frames.
  induction frames as [| frame rest IH]; intros s s' Hi H.
  - simpl in H. injection H as <-. simpl. rewrite Z.add_0_r.
    rewrite Z.mod_small, Z.div_small by lia. lia.
  - simpl in H. destruct (body frame s) as [[[] | e] s1] eqn:Hb; [| discriminate].
    pose proof (steps_to_window _ _ _ _ _ Hb) as Hw.
    pose proof (steps_to_clock_reads _ _ _ Hb) as Hc.
    unfold n_fps_frames in Hw, Hc.
    pose proof (Z.mod_pos_bound (i s + 1) 10 ltac:(lia)) as Hb1.
    destruct (IH s1 s' ltac:(lia) H) as (Hi' & Hc').
    rewrite Hi', Hc', Hw. simpl length. rewrite Nat2Z.inj_succ.
    split.
    + rewrite Zplus_mod_idemp_l. f_equal. lia.
    + destruct (Z.eqb_spec (i s) (10 - 1)) as [E | E]; rewrite Hc.
      * rewrite E. change ((10 - 1 + 1) mod 10) with 0.
        replace (10 - 1 + Z.succ (Z.of_nat (length rest)))
          with (0 + Z.of_nat (length rest) + 1 * 10) by lia.
        rewrite Z.div_add by lia. lia.
      * rewrite (Z.mod_small (i s + 1) 10) by lia.
        replace (i s + Z.succ (Z.of_nat (length rest)))
          with (i s + 1 + Z.of_nat (length rest)) by lia. lia.
Qed.

Lemma iterate_clock_synced (frames : list Frame) : forall s s' : run_state,
  clock_synced s -> iterate frames s = Some s' -> clock_synced s'.
Proof.
  induction frames as [| frame rest IH]; intros s s' Hs H.
  - simpl in H. injection H as <-. exact Hs.
  - simpl in H. destruct (body frame s) as [[[] | e] s1] eqn:Hb; [| discriminate].
    apply (IH s1 s'); [| exact H].
    exact (steps_to_clock_synced swapaxes now frame s s1 Hb Hs).
Qed.

(** X2: the throughput window is cyclic with period 10 and the clock
    is read once per completed window: after [n] completed iterations the
    window counter is [n mod 10], [datetime.now()] has been called
    [1 + n / 10] times, and [previous_time] holds the latest of these
    readings. *)
Theorem window_counter_and_clock_reads (d : FrameDispatcher) (frames : list Frame)
    (s' : run_state) :
  iterate frames (enter d) = Some s' ->
  i s' = Z.of_nat (length frames) mod 10 /\
  clock_reads s' = S (length frames / 10) /\
  previous_time s' = now (length frames / 10).
Proof.
  intros H.
  destruct (iterate_window frames (enter d) s') as (Hi & Hc);
    [simpl; unfold n_fps_frames; lia | exact H |].
  unfold n_fps_frames in *. simpl in Hi, Hc.
  assert (Hn : clock_reads s' = S (length frames / 10)).
  { apply Nat2Z.inj.
    rewrite Hc, (Nat2Z.inj_succ (length frames / 10)), Nat2Z.inj_div.
    change (Z.of_nat 1) with 1. change (Z.of_nat 10) with 10.
    rewrite Z.add_0_l. lia. }
  split; [exact Hi |]. split; [exact Hn |].
  destruct (iterate_clock_synced frames (enter d) s') as (_ & Ht);
    [split; simpl; [lia | reflexivity] | exact H |].
  rewrite Ht, Hn. reflexivity.
Qed.

(** X3: between two window boundaries the stride and the throughput
    estimate do not change: if [n] iterations have completed and [m]
    more complete without reaching the next multiple of 10, the stride
    and the estimate after them are what they were before. *)
Theorem stride_constant_within_window (d : FrameDispatcher) (frames more : list Frame)
    (s1 s2 : run_state) :
  iterate frames (enter d) = Some s1 -> iterate more s1 = Some s2 ->
  (length frames mod 10 + length more <= 9)%nat ->
  every_x s2 = every_x s1 /\ current_framerate s2 = current_framerate s1.
Proof.
  intros H1 H2 Hlen.
  destruct (iterate_window frames (enter d) s1) as (Hi & _);
    [simpl; unfold n_fps_frames; lia | exact H1 |].
  assert (Hi1 : i s1 = Z.of_nat (length frames mod 10)).
  { rewrite Hi, Nat2Z.inj_mod. reflexivity. }
  clear H1 Hi. revert s1 s2 H2 Hi1 Hlen. generalize (length frames mod 10)%nat as k.
  induction more as [| frame rest IH]; intros k s1 s2 H2 Hi1 Hlen.
  - simpl in H2. injection H2 as <-. done.
  - simpl in H2, Hlen. destruct (body frame s1) as [[[] | e] s] eqn:Hb; [| discriminate].
    destruct (steps_to_no_refresh swapaxes now frame s1 s Hb) as (Hx & _ & _ & Hr).
    { unfold n_fps_frames. lia. }
    pose proof (steps_to_window swapaxes now frame s1 s Hb) as Hw.
    unfold n_fps_frames in Hw. rewrite Z.mod_small in Hw by lia.
    destruct (IH (S k) s s2 H2) as (Hx' & Hr'); [lia | lia |].
    rewrite Hx', Hr', Hx, Hr. done.
Qed.

(** *** What reaches the display queue *)

Lemma bookkeep_gui_cases frame (s : run_state) :
  gui_queue (self (snd (bookkeep frame s))) = gui_queue (self s) \/
  gui_queue (self (snd (bookkeep frame s))) = gui_queue (self s) ++ [swapaxes frame].
Proof. unfold bookkeep. exec; fields; auto. Qed.

Lemma body_gui_cases frame (s : run_state) :
  gui_queue (self (snd (body frame s))) = gui_queue (self s) \/
  gui_queue (self (snd (body frame s))) = gui_queue (self s) ++ [swapaxes frame].
Proof.
  rewrite body_split. destruct (process frame s) as [[[] | e] s1] eqn:Hp;
    destruct (process_fields _ _ _ _ Hp) as (<- & _).
  - apply bookkeep_gui_cases.
  - by left.
Qed.

Lemma loop_gui_sublist (frames : list Frame) : forall s : run_state,
  exists shown,
    gui_queue (self (snd (loop (map Some frames) s))) = gui_queue (self s) ++ shown /\
    shown `sublist_of` map swapaxes frames.
Proof.
  induction frames as [| frame rest IH]; intros s.
  - exists []. simpl. by rewrite app_nil_r.
  - simpl. pose proof (body_gui_cases frame s) as Hg.
    destruct (body frame s) as [[[] | e] s1]; simpl in Hg.
    + destruct (IH s1) as (shown & Hq & Hsub). rewrite Hq.
      destruct Hg as [-> | ->].
      * exists shown. split; [done | by apply sublist_cons].
      * exists (swapaxes frame :: shown). rewrite <- app_assoc.
        split; [done | by apply sublist_skip].
    + assert (Hfin : gui_queue (self (snd (match e with
                       | Empty => on_empty s1 | _ => (Crashed e, s1) end)))
                     = gui_queue (self s1)) by (destruct e; reflexivity).
      rewrite Hfin. destruct Hg as [-> | ->].
      * exists []. rewrite app_nil_r. split; [done | apply sublist_nil_l].
      * exists [swapaxes frame]. split; [done |].
        apply sublist_skip, sublist_nil_l.
Qed.

(** X4: in every run (any configuration, any clock, however it ends)
    what has been put on the display queue is a subsequence of the
    delivered frames with their axes swapped: frames reach the display in
    arrival order, none twice, and nothing else is ever put there. *)
Theorem display_is_subsequence (d : FrameDispatcher) (frames : list Frame) :
  exists shown,
    gui_queue (self (snd (run d (map Some frames)))) = gui_queue d ++ shown /\
    shown `sublist_of` map swapaxes frames.
Proof. unfold run. apply (loop_gui_sublist frames (enter d)). Qed.

Lemma iterate_stride_one (frames : list Frame) : forall s s' : run_state,
  self_i (self s) = 0 -> iterate frames s = Some s' ->
  strides frames s = replicate (S (length frames)) 1 ->
  gui_queue (self s') = gui_queue (self s) ++ map swapaxes frames.
Proof.
  induction frames as [| frame rest IH]; intros s s' H0 Hit Hstr.
  - simpl in Hit. injection Hit as <-. simpl. by rewrite app_nil_r.
  - simpl in Hit, Hstr.
    destruct (body frame s) as [[[] | e] s1] eqn:Hb; [| discriminate].
    injection Hstr as _ Hrest. simpl in Hrest.
    assert (Hx1 : every_x s1 = 1) by (destruct rest; simpl in Hrest; congruence).
    destruct (steps_to_display swapaxes now frame s s1 Hb) as (Hg & Hi).
    rewrite Hx1, Z.mod_1_r in Hi. rewrite H0 in Hg. simpl in Hg.
    rewrite (IH s1 s' Hi Hit Hrest), Hg, <- app_assoc. reflexivity.
Qed.

(** X5: while the stride is 1 nothing is decimated: over any stretch of
    completed iterations of a freshly constructed dispatcher during which
    the stride is 1, every frame is put on the display queue, in order. *)
Theorem stride_one_displays_every_frame (has_output_queue : bool)
    (pf : option (Frame -> outcome Result)) (D : py_num)
    (before frames : list Frame) (s s' : run_state) :
  iterate before (enter (FrameDispatcher_init has_output_queue pf D)) = Some s ->
  iterate frames s = Some s' ->
  strides frames s = replicate (S (length frames)) 1 ->
  gui_queue (self s') = gui_queue (self s) ++ map swapaxes frames.
Proof.
  intros Hpre Hit Hstr. apply iterate_stride_one; [| exact Hit | exact Hstr].
  assert (Hr : in_range s).
  { eapply iterate_in_range; [| exact Hpre].
    unfold in_range, n_fps_frames. simpl. lia. }
  destruct Hr as (_ & Hp & _).
  assert (Hx : every_x s = 1) by (destruct frames; simpl in Hstr; congruence).
  lia.
Qed.

(** *** What reaches the output queue *)

Lemma body_output frame (s : run_state) f q0 :
  processing_function (self s) = Some f -> output_queue (self s) = Some q0 ->
  match f frame with
  | Ok y => output_queue (self (snd (body frame s))) = Some (q0 ++ [y])
  | Raise e =>
      output_queue (self (snd (body frame s))) = Some q0 /\ fst (body frame s) = Raise e
  end.
Proof.
  intros Hf Hq. rewrite body_split. destruct (f frame) as [y | e] eqn:Hy.
  - rewrite (process_returns _ _ _ _ _ Hf Hq Hy).
    match goal with |- context [bookkeep frame ?t] => set (s1 := t) end.
    destruct (bookkeep_processing swapaxes now frame s1) as (_ & Hoq & _).
    destruct (bookkeep frame s1) as [[[] | e] s2]; simpl in Hoq |- *; by rewrite Hoq.
  - rewrite (process_raises _ _ _ _ _ Hf Hq Hy). simpl. by rewrite Hq.
Qed.

Lemma loop_output (frames : list Frame) : forall (s : run_state) f q0,
  processing_function (self s) = Some f -> output_queue (self s) = Some q0 ->
  exists ys,
    output_queue (self (snd (loop (map Some frames) s))) = Some (q0 ++ ys) /\
    Forall2 (fun x y => f x = Ok y) (take (length ys) frames) ys /\
    (fst (loop (map Some frames) s) = EndOfStream ->
     (forall x, x ∈ frames -> f x <> Raise Empty) -> length ys = length frames).
Proof.
  induction frames as [| frame rest IH]; intros s f q0 Hf Hq.
  - exists []. simpl. rewrite app_nil_r. repeat split; [done | constructor].
  - simpl. pose proof (body_output frame s f q0 Hf Hq) as Ho.
    destruct (body_processing swapaxes now frame s f Hf ltac:(eauto)) as (_ & Hf1 & _ & He).
    destruct (body frame s) as [[[] | e] s1]; simpl in Ho, Hf1, He.
    + destruct (f frame) as [y | e] eqn:Hy; [| by destruct Ho].
      destruct (IH s1 f (q0 ++ [y]) Hf1 Ho) as (ys & Hq' & Hall & Hlen).
      exists (y :: ys). rewrite Hq', <- app_assoc. split; [done |]. split.
      * simpl. constructor; [exact Hy | exact Hall].
      * intros Hexit Hne. simpl. f_equal. apply Hlen; [exact Hexit |].
        intros x Hx. apply Hne. by right.
    + assert (Hfin : output_queue (self (snd (match e with
                       | Empty => on_empty s1 | _ => (Crashed e, s1) end)))
                     = output_queue (self s1)) by (destruct e; reflexivity).
      rewrite Hfin.
      assert (Hexit : fst (match e with
                       | Empty => on_empty s1 | _ => (Crashed e, s1) end) = EndOfStream ->
                      (forall x, x ∈ frame :: rest -> f x <> Raise Empty) -> False).
      { intros Hx Hne. destruct e; try discriminate.
        apply (Hne frame); [by left | by apply He]. }
      destruct (f frame) as [y | e'] eqn:Hy.
      * exists [y]. split; [exact Ho |]. split.
        -- simpl. constructor; [exact Hy | constructor].
        -- intros Hx Hne. destruct (Hexit Hx Hne).
      * destruct Ho as (Ho & _). exists []. rewrite app_nil_r. split; [exact Ho |].
        split; [constructor |]. intros Hx Hne. destruct (Hexit Hx Hne).
Qed.

(** X6: with a processing function and an output queue, what the run
    has put on the output queue is, in order, the results of the function
    on an initial segment of the delivered frames, one result per frame
    and nothing else; it is one result for every frame when the run
    reaches the end of the stream without the function having raised
    [Empty]. *)
Theorem results_forwarded_in_order (d : FrameDispatcher) (f : Frame -> outcome Result)
    (q0 : list Result) (frames : list Frame) :
  processing_function d = Some f -> output_queue d = Some q0 ->
  exists ys,
    output_queue (self (snd (run d (map Some frames)))) = Some (q0 ++ ys) /\
    Forall2 (fun x y => f x = Ok y) (take (length ys) frames) ys /\
    (fst (run d (map Some frames)) = EndOfStream ->
     (forall x, x ∈ frames -> f x <> Raise Empty) -> length ys = length frames).
Proof. intros Hf Hq. unfold run. apply (loop_output frames (enter d) f q0 Hf Hq). Qed.

(** *** Division by zero at a window boundary *)


Lemma process_completes frame (s : run_state) :
  (forall f, processing_function (self s) = Some f ->
             is_Some (output_queue (self s)) /\ exists y, f frame = Ok y) ->
  exists s1, process frame s = (Ok tt, s1).
Proof.
  intros H. destruct (processing_function (self s)) as [f |] eqn:Hf.
  - destruct (H f eq_refl) as ([q0 Hq] & y & Hy).
    eexists. by apply (process_returns _ _ f q0 y).
  - eexists. by apply process_unconfigured.
Qed.



(** *** An exception in the processing function *)

Lemma steps_to_config frame (s s' : run_state) :
  steps_to s frame s' ->
  gui_framerate (self s') = gui_framerate (self s) /\ stdout s' = stdout s.
Proof.
  intros H. destruct (steps_to_inv _ _ _ _ _ H) as (s1 & Hp & Hb).
  destruct (process_fields _ _ _ _ Hp) as (_ & _ & HD1 & _ & _ & _ & _ & _ & Hs1).
  destruct (bookkeep_processing swapaxes now frame s1) as (_ & _ & _ & Hs2 & HD2).
  rewrite Hb in Hs2, HD2. simpl in Hs2, HD2. split; congruence.
Qed.

(** Completed iterations with a processing function and an output queue:
    the function has been called on every frame. *)
Lemma iterate_calls (frames : list Frame) : forall (s s' : run_state) f,
  processing_function (self s) = Some f -> is_Some (output_queue (self s)) ->
  iterate frames s = Some s' ->
  processing_function (self s') = Some f /\ is_Some (output_queue (self s')) /\
  calls s' = calls s ++ frames /\ stdout s' = stdout s.
Proof.
  induction frames as [| frame rest IH]; intros s s' f Hf Hq Hit.
  - simpl in Hit. injection Hit as <-. by rewrite app_nil_r.
  - simpl in Hit.
    destruct (body_processing swapaxes now frame s f Hf Hq) as (Hc1 & Hf1 & Hq1 & _).
    destruct (body frame s) as [[[] | e] s1] eqn:Hb; [| discriminate].
    simpl in Hc1, Hf1, Hq1.
    destruct (steps_to_config frame s s1 Hb) as (_ & Hs1).
    destruct (IH s1 s' f Hf1 Hq1 Hit) as (Hf' & Hq' & Hc' & Hs').
    split; [exact Hf' |]. split; [exact Hq' |].
    split; [rewrite Hc', Hc1, <- app_assoc; done | congruence].
Qed.

(** X8: once the frames before it have gone through complete
    iterations, a frame on which the processing function raises stops the
    run: that frame's result is not forwarded, the frame is not displayed,
    and no later frame is fetched.  Any exception leaves the run as such,
    except [queue.Empty], which the [except] clause of the loop takes for
    an empty frame queue: the run then ends as an ordinary end of stream,
    with [empty_queue] printed. *)
Theorem processing_exception_stops_the_run (d : FrameDispatcher)
    (f : Frame -> outcome Result) (before : list Frame) (x : Frame)
    (after : list Frame) (e : py_exn) (s : run_state) :
  processing_function d = Some f -> is_Some (output_queue d) ->
  iterate before (enter d) = Some s ->
  f x = Raise e ->
  fst (run d (map Some (before ++ x :: after))) =
    match e with Empty => EndOfStream | _ => Crashed e end /\
  calls (snd (run d (map Some (before ++ x :: after)))) = before ++ [x] /\
  gui_queue (self (snd (run d (map Some (before ++ x :: after))))) = gui_queue (self s) /\
  output_queue (self (snd (run d (map Some (before ++ x :: after)))))
    = output_queue (self s) /\
  stdout (snd (run d (map Some (before ++ x :: after)))) =
    match e with Empty => ["empty_queue"%string] | _ => [] end.
Proof.
  intros Hf Hq Hit Hx.
  destruct (iterate_calls before (enter d) s f Hf Hq Hit) as (Hf' & [q0 Hq'] & Hc & Hs).
  unfold run. rewrite map_app, (loop_iterate _ _ _ _ Hit). simpl.
  rewrite body_split, (process_raises _ _ _ _ _ Hf' Hq' Hx).
  simpl in Hc, Hs. destruct e; simpl; rewrite ?Hc, ?Hs; done.
Qed.

(** *** Runs that reach the end of the stream *)

(** The windows that the iterations over [frames] started in [s]
    complete are those between the clock readings [k] and [k + 1] for [k]
    from the latest reading on; when lines 70-71 return for each of them,
    and the processing step cannot fail, every iteration completes. *)
Lemma iterate_all (frames : list Frame) : forall s : run_state,
  (forall f, processing_function (self s) = Some f ->
             is_Some (output_queue (self s)) /\
             forall x, x ∈ frames -> exists y, f x = Ok y) ->
  0 <= i s < n_fps_frames -> clock_synced s ->
  (forall k : nat,
     (pred (clock_reads s) <= k)%nat ->
     Z.of_nat k < Z.of_nat (pred (clock_reads s))
                  + (i s + Z.of_nat (length frames)) / n_fps_frames ->
     refresh_returns (gui_framerate (self s)) (now (S k) - now k) = true) ->
  exists s', iterate frames s = Some s' /\ stdout s' = stdout s.
Proof.
  unfold n_fps_frames.
  induction frames as [| frame rest IH]; intros s Hok Hi Hsync Hret.
  - exists s. done.
  - destruct (process_completes frame s) as (s1 & Hp).
    { intros f Hf. destruct (Hok f Hf) as (Hq & Hall). split; [exact Hq |].
      apply Hall. by left. }
    destruct (process_fields _ _ _ _ Hp) as (_ & _ & HD1 & Ht1 & Hi1 & _ & _ & Hc1 & _).
    destruct (process_bookkeeping frame s) as (_ & Hpf1 & Hq1).
    rewrite Hp in Hpf1, Hq1. simpl in Hpf1, Hq1.
    simpl length in Hret. rewrite Nat2Z.inj_succ in Hret.
    assert (Hb : exists s2, bookkeep frame s1 = (Ok tt, s2)).
    { destruct (Z.eq_dec (i s) 9) as [E | E].
      - apply bookkeep_completes. destruct Hsync as (Hc & Ht).
        rewrite HD1, Hc1, Ht1, Ht.
        replace (clock_reads s) with (S (pred (clock_reads s))) at 1 by lia.
        apply Hret; [lia |]. rewrite E.
        assert (1 <= (9 + Z.succ (Z.of_nat (length rest))) / 10);
          [apply Z.div_le_lower_bound; lia | lia].
      - apply bookkeep_completes_inside. rewrite Hi1. unfold n_fps_frames. lia. }
    destruct Hb as (s2 & Hb).
    assert (Hstep : steps_to s frame s2).
    { unfold steps_to. rewrite body_split, Hp. exact Hb. }
    destruct (steps_to_config _ _ _ Hstep) as (HD2 & Hs2).
    destruct (bookkeep_processing swapaxes now frame s1) as (Hpf2 & Hq2 & _).
    rewrite Hb in Hpf2, Hq2. simpl in Hpf2, Hq2.
    pose proof (steps_to_window swapaxes now _ _ _ Hstep) as Hw.
    pose proof (steps_to_clock_reads _ _ _ Hstep) as Hcr.
    unfold n_fps_frames in Hw, Hcr.
    destruct (IH s2) as (s' & Hit & Hs').
    + intros f Hf. rewrite Hpf2, Hpf1 in Hf. destruct (Hok f Hf) as (Hq & Hall).
      split; [rewrite Hq2; by apply Hq1 |]. intros x Hx. apply Hall. by right.
    + rewrite Hw. apply Z.mod_pos_bound. lia.
    + exact (steps_to_clock_synced swapaxes now _ _ _ Hstep Hsync).
    + intros k Hk Hlt. rewrite HD2. destruct Hsync as (Hc & _).
      destruct (Z.eqb_spec (i s) (10 - 1)) as [E | E]; rewrite Hcr, Hw in *.
      * rewrite E in Hlt, Hret. change ((10 - 1 + 1) mod 10) with 0 in Hlt.
        apply Hret; [simpl in Hk; lia |].
        replace (10 - 1 + Z.succ (Z.of_nat (length rest)))
          with (0 + Z.of_nat (length rest) + 1 * 10) by lia.
        rewrite Z.div_add by lia. simpl in Hlt. lia.
      * rewrite (Z.mod_small (i s + 1) 10) in Hlt by lia.
        apply Hret; [exact Hk |].
        replace (i s + Z.succ (Z.of_nat (length rest)))
          with (i s + 1 + Z.of_nat (length rest)) by lia. exact Hlt.
    + exists s'. simpl. unfold steps_to in Hstep. rewrite Hstep.
      split; [exact Hit | congruence].
Qed.

(** X9: a dispatcher whose processing step cannot fail (no processing
    function, or one that returns on every frame with an output queue
    attached) and for which lines 70-71 return at the end of each of the
    windows that the frames complete (elapsed time and target rate not
    zero, quotient a finite double) never raises: every delivered frame
    goes through a complete iteration, and the run then ends through the
    timeout, having printed [empty_queue] exactly once. *)
Theorem run_reaches_end_of_stream (d : FrameDispatcher) (frames : list Frame) :
  (forall f, processing_function d = Some f ->
             is_Some (output_queue d) /\ forall x, x ∈ frames -> exists y, f x = Ok y) ->
  (forall k : nat,
     (k < length frames / 10)%nat ->
     refresh_returns (gui_framerate d) (now (S k) - now k) = true) ->
  exists s',
    iterate frames (enter d) = Some s' /\
    run d (map Some frames) = (EndOfStream, set_stdout ["empty_queue"%string] s').
Proof.
  intros Hok Hret.
  destruct (iterate_all frames (enter d) Hok) as (s' & Hit & Hs).
  { simpl. unfold n_fps_frames. lia. }
  { split; simpl; [lia | reflexivity]. }
  { intros k _ Hlt. apply Hret. unfold n_fps_frames in Hlt.
    change (clock_reads (enter d)) with 1%nat in Hlt.
    change (i (enter d)) with 0 in Hlt.
    apply Nat2Z.inj_lt. rewrite Nat2Z.inj_div. change (Z.of_nat 10) with 10.
    change (Z.of_nat (pred 1)) with 0 in Hlt. rewrite !Z.add_0_l in Hlt. exact Hlt. }
  exists s'. split; [exact Hit |].
  unfold run. rewrite <- (app_nil_r (map Some frames)), (loop_iterate _ _ _ _ Hit).
  simpl. unfold on_empty. rewrite Hs. reflexivity.
Qed.

End Dispatcher_more.

(** * Further properties of the frame source *)

Section Camera_more.

Context {Frame : Type}.

Local Abbreviation XimeaCamera := (@XimeaCamera Frame).
Local Abbreviation world := (@world Frame).

(** *** Updates as maps *)

(** X10: keys other than ['exposure'] and ['gain'] are ignored: adding,
    changing or removing any other key of an update does not change what
    applying it does to the device. *)
Theorem unrecognised_keys_are_ignored (u : gmap string py_num) (k : string) (v : py_num)
    (dev : Device) :
  k <> "exposure"%string -> k <> "gain"%string ->
  apply_control (<[k := v]> u) dev = apply_control u dev /\
  apply_control (delete k u) dev = apply_control u dev.
Proof.
  intros He Hg. unfold apply_control, apply_gain.
  rewrite !lookup_insert_ne, !lookup_delete_ne by done. done.
Qed.

Lemma apply_gain_union (a b : gmap string py_num) (dev : Device) :
  apply_gain a (apply_gain b dev) = apply_gain (a ∪ b) dev.
Proof.
  unfold apply_gain. rewrite lookup_union.
  destruct (a !! "gain"%string), (b !! "gain"%string); reflexivity.
Qed.

Lemma apply_gain_set_exposure (u : gmap string py_num) (n : Z) (dev : Device) :
  apply_gain u (set_exposure n dev) = set_exposure n (apply_gain u dev).
Proof. unfold apply_gain. destruct (u !! "gain"%string); reflexivity. Qed.

(** X11: once an update has been applied, applying a second one is
    applying to the original device the union of the two with the later
    one taking precedence, field by field; in particular applying the
    same update again changes nothing more, and an empty update changes
    nothing. *)
Theorem updates_compose_as_union (u1 u2 : gmap string py_num) (dev dev1 : Device) :
  apply_control u1 dev = Ok dev1 ->
  apply_control u2 dev1 = apply_control (u2 ∪ u1) dev /\
  apply_control u1 dev1 = Ok dev1 /\
  apply_control ∅ dev = Ok dev.
Proof.
  assert (H : forall a b d d1,
             apply_control b d = Ok d1 -> apply_control a d1 = apply_control (a ∪ b) d).
  { intros a b d d1. unfold apply_control, and_then. rewrite lookup_union.
    destruct (b !! "exposure"%string) as [vb |].
    - destruct (exposure_units vb) as [nb | e] eqn:Eb; [| discriminate].
      intros Hd. injection Hd as <-.
      destruct (a !! "exposure"%string) as [va |]; simpl.
      + destruct (exposure_units va) as [na | e]; [| reflexivity].
        rewrite <- apply_gain_union, !apply_gain_set_exposure. reflexivity.
      + rewrite Eb, <- apply_gain_union. reflexivity.
    - intros Hd. injection Hd as <-.
      destruct (a !! "exposure"%string) as [va |]; simpl.
      + destruct (exposure_units va) as [na | e]; [| reflexivity].
        rewrite <- apply_gain_union, !apply_gain_set_exposure. reflexivity.
      + rewrite <- apply_gain_union. reflexivity. }
  intros H1. split; [exact (H u2 u1 dev dev1 H1) |]. split.
  - rewrite (H u1 u1 dev dev1 H1), <- H1. f_equal. apply map_eq. intros j.
    rewrite lookup_union. destruct (u1 !! j); reflexivity.
  - reflexivity.
Qed.

(** *** The loop against its surroundings *)

Lemma apply_all_device (us : list (gmap string py_num)) : forall d d' r : Device,
  exposure d = exposure d' -> gain d = gain d' ->
  apply_all us d = Ok r ->
  exists r', apply_all us d' = Ok r' /\ exposure r = exposure r' /\ gain r = gain r'.
Proof.
  induction us as [| u rest IH]; intros d d' r He Hg H.
  - simpl in H. injection H as <-. exists d'. done.
  - simpl in H |- *. unfold and_then in H |- *.
    pose proof (apply_control_device u d d') as Hdev.
    destruct (apply_control u d) as [d1 |]; [| discriminate].
    destruct Hdev as (d1' & -> & He1 & Hg1).
    apply (IH d1 d1' r); auto.
Qed.

(** X12: with nothing more submitted and the termination event not set,
    the loop takes exactly one pending update per iteration, oldest
    first: after [n] iterations the first [n] pending updates (each one
    that line 28 can convert) have been applied in order, the others are
    still queued, and each iteration has captured its frame. *)
Theorem pending_updates_drain_one_per_iteration (ws : list world) (c : XimeaCamera)
    (us : list (gmap string py_num)) (dev : Device) :
  control_queue c = Some us -> signal c = false ->
  Forall (fun w => submitted w = [] /\ set_event w = false) ws ->
  apply_all (take (length ws) us) (cam c) = Ok dev ->
  fst (camera_loop ws c) = Continues /\
  control_queue (snd (camera_loop ws c)) = Some (drop (length ws) us) /\
  exposure (cam (snd (camera_loop ws c))) = exposure dev /\
  gain (cam (snd (camera_loop ws c))) = gain dev /\
  q (snd (camera_loop ws c)) = q c ++ map image ws.
Proof.
  intros Hq Hs Hws. revert c us dev Hq Hs.
  induction Hws as [| w ws (Hsub & Hev) Hws IH]; intros c us dev Hq Hs Hall.
  - simpl in Hall |- *. injection Hall as <-.
    rewrite drop_0, app_nil_r. done.
  - simpl. rewrite (camera_iteration_captures w c Hs Hev).
    assert (Hrecv : control_queue (receive w c) = Some us).
    { simpl. rewrite Hq, Hsub. simpl. by rewrite app_nil_r. }
    destruct (poll_control_frame (receive w c)) as (Hq1 & Hs1 & _).
    destruct us as [| u rest].
    + rewrite (poll_control_idle (receive w c)) by (by right). simpl fst. cbv iota.
      set (c1 := capture (image w) (snd (Ok tt, receive w c))).
      simpl in Hall. injection Hall as <-.
      destruct (IH c1 [] (cam c1)) as (Hf & Hcq & He & Hg & Hqq).
      { subst c1. simpl. rewrite Hq, Hsub. reflexivity. }
      { subst c1. simpl. by rewrite Hs, Hev. }
      { by rewrite take_nil. }
      rewrite drop_nil in *.
      split; [exact Hf |]. split; [exact Hcq |].
      rewrite He, Hg, Hqq. subst c1. simpl. by rewrite <- app_assoc.
    + destruct (poll_control_head _ _ _ Hrecv) as (Hrest & Hcam).
      change (cam (receive w c)) with (cam c) in Hcam.
      simpl in Hall. unfold and_then in Hall.
      destruct (apply_control u (cam c)) as [d1 |] eqn:Hu; [| discriminate].
      destruct Hcam as (Hok & Hcam). rewrite Hok.
      set (c1 := capture (image w) (snd (poll_control (receive w c)))).
      destruct (apply_all_device (take (length ws) rest) d1 (cam c1) dev)
        as (dev' & Hall' & He' & Hg'); [| | exact Hall |].
      { subst c1. simpl. by rewrite Hcam. }
      { subst c1. simpl. by rewrite Hcam. }
      destruct (IH c1 rest dev') as (Hf & Hcq & He & Hg & Hqq).
      { subst c1. simpl. exact Hrest. }
      { subst c1. simpl. rewrite Hs1. simpl. by rewrite Hs, Hev. }
      { exact Hall'. }
      split; [exact Hf |]. split; [exact Hcq |].
      rewrite He, Hg, Hqq, He', Hg'. subst c1. simpl. rewrite Hq1. simpl.
      by rewrite <- app_assoc.
Qed.

Lemma camera_iteration_no_control (w : world) (c : XimeaCamera) :
  control_queue c = None ->
  control_queue (snd (camera_iteration w c)) = None /\
  exposure (cam (snd (camera_iteration w c))) = exposure (cam c) /\
  gain (cam (snd (camera_iteration w c))) = gain (cam c).
Proof.
  intros H. unfold camera_iteration.
  rewrite (poll_control_idle (receive w c)) by (left; simpl; by rewrite H).
  simpl. destruct (signal c || set_event w); simpl; rewrite ?H; done.
Qed.

(** X13: a camera constructed without a control queue never changes the
    device parameters: whatever is submitted and however long the loop
    runs, exposure and gain stay as they were when the loop was entered. *)
Theorem no_control_queue_no_change (ws : list world) (c : XimeaCamera) :
  control_queue c = None ->
  exposure (cam (snd (camera_loop ws c))) = exposure (cam c) /\
  gain (cam (snd (camera_loop ws c))) = gain (cam c) /\
  control_queue (snd (camera_loop ws c)) = None.
Proof.
  revert c. induction ws as [| w rest IH]; intros c H; [done |].
  simpl. destruct (camera_iteration_no_control w c H) as (Hq & He & Hg).
  destruct (camera_iteration w c) as [[| | e] c1]; simpl in Hq, He, Hg |- *; try done.
  destruct (IH c1 Hq) as (He' & Hg' & Hq'). rewrite He', Hg', He, Hg. done.
Qed.

(** X14: every image read from the sensor is put on the frame queue,
    and nothing else is: after any history the frame queue has grown by
    exactly the images of the first [k] iterations, in order, where [k]
    is also the number of images read; [k] is the whole history while the
    loop is still running, and the loop has left through [break] only
    with the event set. *)
Theorem every_image_read_is_queued (ws : list world) (c : XimeaCamera) :
  exists k,
    (k <= length ws)%nat /\
    q (snd (camera_loop ws c)) = q c ++ map image (take k ws) /\
    images_read (cam (snd (camera_loop ws c))) = (images_read (cam c) + k)%nat /\
    (fst (camera_loop ws c) = Continues -> k = length ws) /\
    (fst (camera_loop ws c) = Breaks -> signal (snd (camera_loop ws c)) = true).
Proof.
  revert c. induction ws as [| w rest IH]; intros c.
  - exists 0%nat. simpl. rewrite app_nil_r. repeat split; [lia | lia | done].
  - simpl.
    destruct (camera_iteration_frames w c) as [(Hf & Hs & Hq & Hn) | (Hf & Hs & Hq & Hn)];
      destruct (camera_iteration w c) as [fl c1]; simpl in Hf, Hs, Hq, Hn.
    + subst fl. destruct (IH c1) as (k & Hk & Hq' & Hn' & Hrun & Hexit).
      exists (S k). simpl. rewrite Hq', Hn', Hq, Hn, <- app_assoc.
      repeat split; [lia | lia | | exact Hexit]. intros H. f_equal. by apply Hrun.
    + exists 0%nat. destruct fl as [| | e]; [done | |]; simpl;
        rewrite app_nil_r, Hq, Hn; repeat split; try lia; try done.
Qed.

End Camera_more.

(** * The camera feeding the dispatcher *)

Section Pipeline_more.

Context {Frame Result : Type}.
Variable swapaxes : Frame -> Frame.
Variable now : nat -> Z.

Lemma camera_loop_until_event (pre : list (@world Frame)) : forall w post c,
  signal c = false -> Forall (fun v => set_event v = false) pre -> set_event w = true ->
  fst (camera_loop (pre ++ w :: post) c) = Breaks ->
  q (snd (camera_loop (pre ++ w :: post) c)) = q c ++ map image pre.
Proof.
  induction pre as [| v pre IH]; intros w post c Hs Hpre Hw.
  - simpl. rewrite camera_iteration_stops by (rewrite Hw; apply orb_true_r).
    destruct (poll_control_frame (receive w c)) as (Hq & _).
    destruct (fst (poll_control (receive w c))); simpl; [| discriminate].
    intros _. rewrite Hq. simpl. by rewrite app_nil_r.
  - apply Forall_cons in Hpre as (Hv & Hpre). simpl.
    rewrite (camera_iteration_captures v c Hs Hv).
    destruct (poll_control_frame (receive v c)) as (Hq & Hsig & _).
    destruct (fst (poll_control (receive v c))); [| discriminate].
    intros Hb. rewrite IH; [| | exact Hpre | exact Hw | exact Hb].
    + simpl. rewrite Hq. simpl. by rewrite <- app_assoc.
    + simpl. rewrite Hsig. simpl. by rewrite Hs, Hv.
Qed.

(** X15: the two workers composed as in [__main__] (one frame queue
    written by the camera and read by the dispatcher).  Take a camera
    that starts on an empty frame queue, meets the termination event for
    the first time in some iteration and leaves through the [break] (no
    update has raised), and a dispatcher that is delivered what the camera
    queued without a timeout in between, whose processing step cannot
    fail on these images and for which lines 70-71 return at the end of
    each window they complete.  Then every image captured before the event
    goes through the dispatcher in capture order: the processing function,
    if any, is called on exactly these images, what is displayed is a
    subsequence of them, and the dispatcher ends through its timeout
    rather than an exception. *)
Theorem captured_frames_reach_the_dispatcher (pre : list (@world Frame)) (w : @world Frame)
    (post : list (@world Frame)) (c : @XimeaCamera Frame)
    (d : @FrameDispatcher Frame Result) :
  q c = [] -> signal c = false ->
  Forall (fun v => set_event v = false) pre -> set_event w = true ->
  fst (camera_loop (pre ++ w :: post) c) = Breaks ->
  (forall f, processing_function d = Some f ->
             is_Some (output_queue d) /\
             forall x, x ∈ map image pre -> exists y, f x = Ok y) ->
  (forall k : nat,
     (k < length pre / 10)%nat ->
     refresh_returns (gui_framerate d) (now (S k) - now k) = true) ->
  q (snd (camera_loop (pre ++ w :: post) c)) = map image pre /\
  fst (run swapaxes now d (map Some (q (snd (camera_loop (pre ++ w :: post) c)))))
    = EndOfStream /\
  (is_Some (processing_function d) ->
   calls (snd (run swapaxes now d (map Some (q (snd (camera_loop (pre ++ w :: post) c))))))
     = map image pre) /\
  exists shown,
    gui_queue (self (snd (run swapaxes now d
                            (map Some (q (snd (camera_loop (pre ++ w :: post) c)))))))
      = gui_queue d ++ shown /\
    shown `sublist_of` map swapaxes (map image pre).
Proof.
  intros Hq0 Hs Hpre Hw Hb Hok Hret.
  rewrite (camera_loop_until_event pre w post c Hs Hpre Hw Hb), Hq0. simpl.
  split; [reflexivity |].
  destruct (iterate_all swapaxes now (map image pre) (enter now d) Hok) as (s' & Hit & _).
  { simpl. unfold n_fps_frames. lia. }
  { split; simpl; [lia | reflexivity]. }
  { intros k _ Hlt. apply Hret. unfold n_fps_frames in Hlt.
    change (clock_reads (enter now d)) with 1%nat in Hlt.
    change (i (enter now d)) with 0 in Hlt. rewrite length_map in Hlt.
    apply Nat2Z.inj_lt. rewrite Nat2Z.inj_div. change (Z.of_nat 10) with 10.
    change (Z.of_nat (pred 1)) with 0 in Hlt. rewrite !Z.add_0_l in Hlt. exact Hlt. }
  assert (Hrun : run swapaxes now d (map Some (map image pre)) = on_empty s').
  { unfold run. rewrite <- (app_nil_r (map Some _)), (loop_iterate _ _ _ _ _ _ Hit).
    reflexivity. }
  split; [rewrite Hrun; reflexivity |]. split.
  - intros [f Hf]. destruct (Hok f Hf) as (Hoq & _).
    destruct (iterate_calls swapaxes now (map image pre) (enter now d) s' f Hf Hoq Hit)
      as (_ & _ & Hcalls & _).
    rewrite Hrun. simpl. exact Hcalls.
  - apply (loop_gui_sublist swapaxes now (map image pre) (enter now d)).
Qed.

End Pipeline_more.

(** * Properties of the plot computations *)

Section MultiScope_facts.

Import MultiScope.

(** *** Downsampling *)

Lemma every_nth_length {A} (k : nat) (a : list A) : forall skip,
  (1 <= k)%nat ->
  length (every_nth k skip a) = ((length a - skip + (k - 1)) / k)%nat.
Proof.
  induction a as [| r a IH]; intros skip Hk.
  - simpl. symmetry. apply Nat.div_small. lia.
  - destruct skip as [| skip]; cbn [every_nth length].
    + rewrite IH by exact Hk.
      replace (S (length a) - 0 + (k - 1))%nat with (length a + 1 * k)%nat by lia.
      rewrite Nat.div_add by lia.
      destruct (Nat.le_gt_cases (k - 1) (length a)) as [Hge | Hlt].
      * replace (length a - pred k + (k - 1))%nat with (length a) by lia. lia.
      * replace (length a - pred k + (k - 1))%nat with (k - 1)%nat by lia.
        rewrite !Nat.div_small by lia. lia.
    + rewrite IH by exact Hk. reflexivity.
Qed.

Lemma every_nth_sublist {A} (k : nat) (a : list A) : forall skip,
  every_nth k skip a `sublist_of` a.
Proof.
  induction a as [| r a IH]; intros skip; [constructor |].
  destruct skip; simpl; [apply sublist_skip | apply sublist_cons]; apply IH.
Qed.

(** X21: for a positive [n_points_max], data with at most that many
    rows are left alone; longer data are thinned to every [step]-th row
    with [step = len // n_points_max], starting with the first row and
    keeping the order, which leaves at least [n_points_max] rows and at
    most [2 * n_points_max - 1]. *)
Theorem downsample_bounds {A} (n_points_max : Z) (data_array : list A) :
  0 < n_points_max ->
  (Z.of_nat (length data_array) <= n_points_max ->
   downsample n_points_max data_array = Done data_array) /\
  (n_points_max < Z.of_nat (length data_array) ->
   exists r,
     downsample n_points_max data_array = Done r /\
     n_points_max <= Z.of_nat (length r) <= 2 * n_points_max - 1 /\
     r `sublist_of` data_array /\
     head r = head data_array).
Proof.
  intros HN. unfold downsample. split; intros HL.
  - destruct (Z.ltb_spec n_points_max (Z.of_nat (length data_array))); [lia | reflexivity].
  - destruct (Z.ltb_spec n_points_max (Z.of_nat (length data_array))); [| lia].
    destruct (Z.eqb_spec n_points_max 0); [lia |].
    set (L := Z.of_nat (length data_array)) in *.
    assert (Hstep : 1 <= L / n_points_max) by (apply Z.div_le_lower_bound; lia).
    destruct (L / n_points_max) as [| p | p] eqn:Ep; try lia.
    simpl. eexists. split; [reflexivity |].
    split; [| split].
    + rewrite every_nth_length by lia.
      rewrite Nat2Z.inj_div, Nat2Z.inj_add, !Nat2Z.inj_sub by lia.
      rewrite positive_nat_Z. fold L. change (Z.of_nat 0) with 0. change (Z.of_nat 1) with 1.
      pose proof (Z.mul_div_le L n_points_max HN) as Hlo.
      pose proof (Z.mul_succ_div_gt L n_points_max HN) as Hhi.
      rewrite Ep in Hlo, Hhi.
      assert (Hp : 0 < Z.pos p) by lia.
      split.
      * apply Z.div_le_lower_bound; [exact Hp | nia].
      * apply Z.lt_succ_r, Z.div_lt_upper_bound; [exact Hp | nia].
    + apply every_nth_sublist.
    + destruct data_array; reflexivity.
Qed.

(** *** Colours *)



(** *** The streams of a plot *)

Lemma py_index_Some (x : string) (l : list string) : forall i,
  py_index x l = Some i -> l !! i = Some x.
Proof.
  induction l as [| y rest IH]; intros i H; [discriminate |].
  simpl in H. destruct (String.eqb_spec y x) as [-> | Hne].
  - by injection H as <-.
  - destruct (py_index x rest) as [j |]; [| discriminate].
    injection H as <-. simpl. by apply IH.
Qed.

Lemma py_index_elem (x : string) (l : list string) :
  x ∈ l -> is_Some (py_index x l).
Proof.
  induction l as [| y rest IH]; intros H; [by apply elem_of_nil in H |].
  simpl. destruct (String.eqb_spec y x) as [-> | Hne]; [eauto |].
  apply elem_of_cons in H as [-> | H]; [done |].
  destruct (IH H) as [j ->]. simpl. eauto.
Qed.

Lemma py_index_None (x : string) (l : list string) :
  py_index x l = None -> x ∉ l.
Proof.
  intros H Hin. destruct (py_index_elem x l Hin) as [j Hj]. congruence.
Qed.

Lemma py_index_NoDup (x : string) (l : list string) : forall i,
  NoDup l -> l !! i = Some x -> py_index x l = Some i.
Proof.
  induction l as [| y rest IH]; intros i Hnd Hi; [done |].
  apply NoDup_cons in Hnd as (Hy & Hnd). simpl.
  destruct i as [| i]; simpl in Hi.
  - injection Hi as ->. by rewrite String.eqb_refl.
  - destruct (String.eqb_spec y x) as [-> | Hne].
    + exfalso. apply Hy. eapply list_elem_of_lookup_2, Hi.
    + by rewrite (IH i Hnd Hi).
Qed.

Lemma get_colors_length (cspace_convert : Q * Q * Q -> Q * Q * Q) (n : nat) (l s h : Q) :
  length (get_colors cspace_convert n l s h) = n.
Proof. unfold get_colors, hues. by rewrite !length_map, length_seq. Qed.

Lemma paint_paint (item : PlotTuple) (c c' : Q * Q * Q) :
  paint (paint item c) c' = paint item c'.
Proof. reflexivity. Qed.

Lemma paint_all_full (items : list PlotTuple) (cs : list (Q * Q * Q)) :
  length cs = length items -> paint_all items cs = zip_with paint items cs.
Proof.
  intros H. unfold paint_all. rewrite drop_ge by lia. apply app_nil_r.
Qed.

Section Streams_facts.

Variable cspace_convert : Q * Q * Q -> Q * Q * Q.

Local Abbreviation add_stream := (add_stream cspace_convert).
Local Abbreviation add_selected := (add_selected cspace_convert).
Local Abbreviation refresh_plots := (refresh_plots cspace_convert).

Lemma label_paint_all (items : list PlotTuple) (cs : list (Q * Q * Q)) :
  length cs = length items ->
  map (fun it => text (curve_label it)) (paint_all items cs) =
  map (fun it => text (curve_label it)) items.
Proof.
  intros H. rewrite paint_all_full by exact H. revert cs H.
  induction items as [| it rest IH]; intros [| c cs] H; try discriminate; [reflexivity |].
  simpl. f_equal. apply IH. simpl in H. lia.
Qed.

Lemma label_new_items (tp : Q) (n : nat) (items : list string) :
  map (fun it => text (curve_label it))
      (imap (fun k h => new_item tp (n + k) h) items) = items.
Proof.
  revert n. induction items as [| h rest IH]; intros n; [reflexivity |].
  simpl. f_equal. rewrite <- (IH (S n)) at 2. f_equal.
  apply imap_ext. intros k x _. simpl. f_equal. lia.
Qed.

Lemma add_stream_ok (acc : DataAccumulator) (hi : option (list string))
    (self : MultiStreamPlot) :
  Forall (fun h => h ∈ header_list acc) (chosen_headers acc hi) ->
  consistent self ->
  exists indexes self',
    add_stream acc hi self = (self', None) /\
    Forall2 (fun h i => py_index h (header_list acc) = Some i)
            (chosen_headers acc hi) indexes /\
    time_past self' = time_past self /\
    accumulators self' = accumulators self ++ [acc] /\
    header_indexes self' = header_indexes self ++ [indexes] /\
    bounds self' = bounds self ++ [None] /\
    map (fun it => text (curve_label it)) (stream_items self') =
      map (fun it => text (curve_label it)) (stream_items self) ++ chosen_headers acc hi /\
    y_range self' =
      (- (1 # 10), inject_Z (Z.of_nat (length (stream_items self'))) + (1 # 10))%Q /\
    consistent self'.
Proof.
  intros Hin (Hacc & Hb & Hidx & Hlen & Hcol & Hlay).
  set (items := chosen_headers acc hi) in *.
  assert (Hm : is_Some (mapM (fun dv => py_index dv (header_list acc)) items)).
  { apply mapM_is_Some. eapply Forall_impl; [exact Hin |].
    intros h Hh. by apply py_index_elem. }
  destruct Hm as [indexes Hm]. pose proof Hm as HF. apply mapM_Some in HF.
  pose proof (Forall2_length _ _ _ HF) as Hli.
  set (all := stream_items self ++
              imap (fun k h => new_item (time_past self) (length (stream_items self) + k) h)
                   items).
  set (cs := get_colors cspace_convert (length (stream_items self) + length items) 50 50 0).
  assert (Hall : length all = (length (stream_items self) + length items)%nat).
  { subst all. by rewrite length_app, length_imap. }
  assert (Hcs : length cs = length all).
  { subst cs. rewrite get_colors_length. lia. }
  exists indexes. eexists. split.
  { unfold add_stream, MultiScope.add_stream. fold items. rewrite Hm. reflexivity. }
  fold all cs. cbn [time_past accumulators header_indexes bounds stream_items y_range colors].
  split; [exact HF |]. split; [reflexivity |]. split; [reflexivity |].
  split; [reflexivity |]. split; [reflexivity |]. split.
  { rewrite label_paint_all by exact Hcs. subst all.
    rewrite map_app, label_new_items. reflexivity. }
  assert (Hpl : length (paint_all all cs) = length all).
  { rewrite paint_all_full by exact Hcs. rewrite length_zip_with. lia. }
  split.
  { rewrite Hpl. reflexivity. }
  unfold consistent.
  cbn [time_past accumulators header_indexes bounds stream_items y_range colors].
  split; [rewrite !length_app; simpl; lia |].
  split; [rewrite !length_app; simpl; lia |].
  split.
  { apply Forall2_app; [exact Hidx |]. constructor; [| constructor].
    apply Forall_forall. intros i Hi.
    apply list_elem_of_lookup in Hi as (k & Hk).
    destruct (Forall2_lookup_r _ _ _ _ _ HF Hk) as (h & _ & Hh).
    apply py_index_Some in Hh. by apply lookup_lt_Some in Hh. }
  split.
  { rewrite Hpl, Hall, concat_app, length_app. simpl. rewrite app_nil_r. lia. }
  split; [lia |].
  intros k item c Hitem Hc.
  rewrite paint_all_full in Hitem by exact Hcs.
  rewrite lookup_zip_with in Hitem.
  destruct (all !! k) as [it0 |] eqn:Hk; [| discriminate]. simpl in Hitem.
  rewrite Hc in Hitem. simpl in Hitem. injection Hitem as <-.
  subst all. destruct (decide (k < length (stream_items self))%nat) as [Hlt | Hge].
  - rewrite lookup_app_l in Hk by exact Hlt.
    destruct (lookup_lt_is_Some_2 (colors self) k ltac:(lia)) as [c0 Hc0].
    rewrite (Hlay k it0 c0 Hk Hc0). reflexivity.
  - rewrite lookup_app_r in Hk by lia. rewrite list_lookup_imap in Hk.
    destruct (items !! (k - length (stream_items self))%nat) as [h |]; [| discriminate].
    simpl in Hk. injection Hk as <-.
    replace (length (stream_items self) + (k - length (stream_items self)))%nat
      with k by lia. reflexivity.
Qed.

(** X23: adding a stream whose headers all occur in the header list of
    the accumulator raises nothing and keeps the plot consistent; the
    accumulator is appended, one curve per header is appended in the order
    given, and the index stored for each header is a position at which the
    header list holds that header. *)
Theorem add_stream_keeps_plot_consistent (acc : DataAccumulator)
    (hi : option (list string)) (self : MultiStreamPlot) :
  Forall (fun h => h ∈ header_list acc) (chosen_headers acc hi) ->
  consistent self ->
  snd (add_stream acc hi self) = None /\
  consistent (fst (add_stream acc hi self)) /\
  accumulators (fst (add_stream acc hi self)) = accumulators self ++ [acc] /\
  map (fun it => text (curve_label it)) (stream_items (fst (add_stream acc hi self))) =
    map (fun it => text (curve_label it)) (stream_items self) ++ chosen_headers acc hi /\
  exists indexes,
    header_indexes (fst (add_stream acc hi self)) = header_indexes self ++ [indexes] /\
    Forall2 (fun h i => header_list acc !! i = Some h) (chosen_headers acc hi) indexes.
Proof.
  intros Hin Hc.
  destruct (add_stream_ok acc hi self Hin Hc)
    as (indexes & self' & -> & HF & _ & Ha & Hh & _ & Hl & _ & Hc').
  simpl. split; [reflexivity |]. split; [exact Hc' |]. split; [exact Ha |].
  split; [exact Hl |]. exists indexes. split; [exact Hh |].
  eapply Forall2_impl; [exact HF |]. intros h i. apply py_index_Some.
Qed.

(** X24: a header that the accumulator does not have makes [add_stream]
    raise [ValueError] after the accumulator has been appended and before
    anything else is: the indexes, the bounds and the curves are as
    before, so that a plot that was consistent is left with one
    accumulator more than lists of indexes. *)
Theorem add_stream_unknown_header (acc : DataAccumulator) (hi : option (list string))
    (self : MultiStreamPlot) (h : string) :
  h ∈ chosen_headers acc hi -> h ∉ header_list acc ->
  snd (add_stream acc hi self) = Some ValueError /\
  accumulators (fst (add_stream acc hi self)) = accumulators self ++ [acc] /\
  header_indexes (fst (add_stream acc hi self)) = header_indexes self /\
  bounds (fst (add_stream acc hi self)) = bounds self /\
  stream_items (fst (add_stream acc hi self)) = stream_items self /\
  (consistent self ->
   length (accumulators (fst (add_stream acc hi self))) =
     S (length (header_indexes (fst (add_stream acc hi self))))).
Proof.
  intros Hh Hnot.
  assert (Hm : mapM (fun dv => py_index dv (header_list acc)) (chosen_headers acc hi) = None).
  { destruct (mapM _ _) as [indexes |] eqn:E; [| reflexivity]. exfalso.
    apply mapM_Some in E. apply list_elem_of_lookup in Hh as (k & Hk).
    destruct (Forall2_lookup_l _ _ _ _ _ E Hk) as (i & _ & Hi).
    apply py_index_Some in Hi. apply Hnot. eapply list_elem_of_lookup_2, Hi. }
  unfold add_stream, MultiScope.add_stream. rewrite Hm. simpl.
  repeat split. intros (Ha & _). rewrite length_app. simpl. lia.
Qed.

(** X25: by default, for an accumulator without monitored headers whose
    header names are distinct, [add_stream] plots every column but the
    first (the time), in order: the indexes stored are 1, 2, ... up to the
    last column. *)
Theorem add_stream_default_columns (acc : DataAccumulator) (self : MultiStreamPlot) :
  monitored_headers acc = None -> NoDup (header_list acc) ->
  snd (add_stream acc None self) = None /\
  header_indexes (fst (add_stream acc None self)) =
    header_indexes self ++ [seq 1 (length (header_list acc) - 1)].
Proof.
  intros Hmon Hnd.
  assert (Hm : mapM (fun dv => py_index dv (header_list acc)) (chosen_headers acc None)
               = Some (seq 1 (length (header_list acc) - 1))).
  { unfold chosen_headers. rewrite Hmon. apply mapM_Some.
    apply Forall2_same_length_lookup_2; [by rewrite length_drop, length_seq |].
    intros k x i Hx Hi. rewrite lookup_drop in Hx.
    apply lookup_seq in Hi as (-> & _). by apply py_index_NoDup. }
  unfold add_stream, MultiScope.add_stream. rewrite Hm. simpl. done.
Qed.

Lemma sel_headers_known (ac : DataAccumulator) (chk : list bool) :
  Forall (fun h => h ∈ header_list ac) (sel_headers ac chk).
Proof.
  apply Forall_forall. intros h Hh. unfold sel_headers in Hh.
  apply list_elem_of_fmap in Hh as ([h' b] & -> & Hp).
  apply list_elem_of_filter in Hp as (_ & Hp).
  apply elem_of_zip_l in Hp. simpl.
  apply list_elem_of_lookup in Hp as (k & Hk). rewrite lookup_drop in Hk.
  eapply list_elem_of_lookup_2, Hk.
Qed.

Lemma add_selected_cons (chk : list bool) (ac : DataAccumulator)
    (rest : list (list bool * DataAccumulator)) (self : MultiStreamPlot) :
  add_selected ((chk, ac) :: rest) self =
    match add_stream ac (Some (sel_headers ac chk)) self with
    | (self', None) => add_selected rest self'
    | failed => failed
    end.
Proof. reflexivity. Qed.

Lemma add_selected_ok (pairs : list (list bool * DataAccumulator)) :
  forall self : MultiStreamPlot,
  consistent self ->
  snd (add_selected pairs self) = None /\
  consistent (fst (add_selected pairs self)) /\
  time_past (fst (add_selected pairs self)) = time_past self /\
  accumulators (fst (add_selected pairs self)) = accumulators self ++ map snd pairs /\
  map (fun it => text (curve_label it)) (stream_items (fst (add_selected pairs self))) =
    map (fun it => text (curve_label it)) (stream_items self) ++
    concat (map (fun p => sel_headers (snd p) (fst p)) pairs).
Proof.
  induction pairs as [| [chk ac] rest IH]; intros self Hc.
  - simpl. rewrite !app_nil_r. done.
  - destruct (add_stream_ok ac (Some (sel_headers ac chk)) self (sel_headers_known ac chk) Hc)
      as (indexes & self' & Hadd & _ & Ht & Ha & _ & _ & Hl & _ & Hc').
    rewrite add_selected_cons, Hadd.
    destruct (IH self' Hc') as (He & Hc'' & Ht'' & Ha'' & Hl'').
    split; [exact He |]. split; [exact Hc'' |]. split; [congruence |].
    split; [rewrite Ha'', Ha, <- app_assoc; reflexivity |].
    rewrite Hl'', Hl, <- app_assoc. reflexivity.
Qed.

Lemma snd_zip_take {A B} (l : list A) : forall k : list B,
  map snd (zip l k) = take (length l) k.
Proof.
  induction l as [| x l IH]; intros [| y k]; try reflexivity.
  simpl. f_equal. apply IH.
Qed.

Lemma remove_streams_consistent (self : MultiStreamPlot) : consistent (remove_streams self).
Proof.
  unfold consistent, remove_streams. simpl. repeat split; try lia; [constructor |].
  intros k item c H. discriminate.
Qed.

(** X26: [refresh_plots] never raises, whatever the state of the plot
    and of the boxes: the headers it adds are taken from the header lists
    themselves.  It leaves the plot consistent, with the accumulators of
    the configuration window in their order (as many as there are rows of
    boxes) and one curve per checked box, in the order of the boxes. *)
Theorem refresh_plots_rebuilds_the_plot (self : StreamPlotConfig) :
  snd (refresh_plots self) = None /\
  consistent (sp (fst (refresh_plots self))) /\
  accumulators (sp (fst (refresh_plots self))) =
    take (length (checkboxes self)) (accs self) /\
  map (fun it => text (curve_label it)) (stream_items (sp (fst (refresh_plots self)))) =
    concat (zip_with (fun chk ac => sel_headers ac chk) (checkboxes self) (accs self)).
Proof.
  unfold refresh_plots, MultiScope.refresh_plots. simpl.
  destruct (add_selected_ok (zip (checkboxes self) (accs self)) (remove_streams (sp self))
              (remove_streams_consistent (sp self))) as (He & Hc & _ & Ha & Hl).
  split; [exact He |]. split; [exact Hc |]. split.
  - rewrite Ha. simpl. apply snd_zip_take.
  - rewrite Hl. simpl. f_equal. clear.
    generalize (accs self). induction (checkboxes self) as [| chk rest IH];
      intros [| ac acs]; try reflexivity.
    simpl. f_equal. apply IH.
Qed.

Lemma filter_zip_map {A} (f : A -> bool) (l : list A) :
  map fst (filter (fun p => snd p = true) (zip l (map f l))) =
  filter (fun x => f x = true) l.
Proof.
  induction l as [| x l IH]; [reflexivity |].
  simpl. rewrite !filter_cons. simpl.
  destruct (decide (f x = true)); simpl; by rewrite IH.
Qed.

(** X27: refreshing the plots from a configuration window in which no
    box has been touched gives back the accumulators of the plot, each
    with the curves of the headers after the first that are monitored
    (all of them when the accumulator monitors none in particular), in
    the order of its header list. *)
Theorem refresh_plots_after_init (self : MultiStreamPlot) :
  snd (refresh_plots (StreamPlotConfig_init self)) = None /\
  accumulators (sp (fst (refresh_plots (StreamPlotConfig_init self)))) = accumulators self /\
  map (fun it => text (curve_label it))
      (stream_items (sp (fst (refresh_plots (StreamPlotConfig_init self))))) =
    concat (map (fun ac => filter (fun h => starts_checked ac h = true)
                                  (drop 1 (header_list ac)))
                (accumulators self)).
Proof.
  destruct (add_selected_ok
              (zip (checkboxes (StreamPlotConfig_init self)) (accs (StreamPlotConfig_init self)))
              (remove_streams self) (remove_streams_consistent self))
    as (He & _ & _ & Ha & Hl).
  unfold refresh_plots, MultiScope.refresh_plots. cbn [fst snd sp].
  change (sp (StreamPlotConfig_init self)) with self.
  split; [exact He |]. split.
  - rewrite Ha. cbn [accumulators remove_streams app]. rewrite snd_zip_take.
    unfold StreamPlotConfig_init. cbn [checkboxes accs].
    rewrite length_map. apply firstn_all.
  - rewrite Hl. cbn [stream_items remove_streams map app]. f_equal.
    unfold StreamPlotConfig_init. cbn [checkboxes accs].
    induction (accumulators self) as [| ac rest IH]; [reflexivity |].
    cbn [map zip zip_with fst snd]. f_equal; [| exact IH].
    unfold sel_headers. apply filter_zip_map.
Qed.

End Streams_facts.

End MultiScope_facts.

(** * The further properties on concrete inputs *)

Lemma window_counter_and_clock_reads_witness :
  i (ex_state_after clock_300fps ex_plain (ex_frames 25)) = 5 /\
  clock_reads (ex_state_after clock_300fps ex_plain (ex_frames 25)) = 3%nat /\
  previous_time (ex_state_after clock_300fps ex_plain (ex_frames 25)) = clock_300fps 2.
Proof.
  apply (window_counter_and_clock_reads ex_swapaxes clock_300fps ex_plain (ex_frames 25)).
  vm_compute. reflexivity.
Defined.

Lemma stride_constant_within_window_witness :
  every_x (ex_state_after clock_300fps ex_plain (ex_frames 14)) =
  every_x (ex_state_after clock_300fps ex_plain (ex_frames 12)).
Proof.
  refine (proj1 (stride_constant_within_window ex_swapaxes clock_300fps ex_plain
                   (ex_frames 12) [ex_frame 13; ex_frame 14]
                   (ex_state_after clock_300fps ex_plain (ex_frames 12))
                   (ex_state_after clock_300fps ex_plain (ex_frames 14)) _ _ _)).
  - vm_compute. reflexivity.
  - vm_compute. reflexivity.
  - vm_compute. lia.
Defined.

Lemma stride_one_displays_every_frame_witness :
  gui_queue (self (ex_state_after clock_50fps ex_plain (ex_frames 13))) =
  gui_queue (self (ex_state_after clock_50fps ex_plain (ex_frames 10))) ++
  map ex_swapaxes [ex_frame 11; ex_frame 12; ex_frame 13].
Proof.
  apply (stride_one_displays_every_frame ex_swapaxes clock_50fps false None (PyInt 30)
           (ex_frames 10) [ex_frame 11; ex_frame 12; ex_frame 13]).
  - vm_compute. reflexivity.
  - vm_compute. reflexivity.
  - vm_compute. reflexivity.
Defined.

Lemma results_forwarded_in_order_witness :
  exists ys,
    output_queue (self (snd (run ex_swapaxes clock_300fps ex_attached
                               (map Some (ex_frames 3))))) = Some ([] ++ ys) /\
    Forall2 (fun x y => ex_double x = Ok y) (take (length ys) (ex_frames 3)) ys /\
    (fst (run ex_swapaxes clock_300fps ex_attached (map Some (ex_frames 3))) = EndOfStream ->
     (forall x, x ∈ ex_frames 3 -> ex_double x <> Raise Empty) ->
     length ys = length (ex_frames 3)).
Proof.
  apply (results_forwarded_in_order ex_swapaxes clock_300fps ex_attached ex_double []
           (ex_frames 3)); reflexivity.
Defined.


Lemma processing_exception_stops_the_run_witness :
  fst (run ex_swapaxes clock_300fps ex_picky
           (map Some (ex_frames 2 ++ ex_frame 3 :: [ex_frame 4]))) = EndOfStream /\
  calls (snd (run ex_swapaxes clock_300fps ex_picky
                  (map Some (ex_frames 2 ++ ex_frame 3 :: [ex_frame 4]))))
    = ex_frames 2 ++ [ex_frame 3] /\
  gui_queue (self (snd (run ex_swapaxes clock_300fps ex_picky
                            (map Some (ex_frames 2 ++ ex_frame 3 :: [ex_frame 4])))))
    = gui_queue (self (ex_state_after clock_300fps ex_picky (ex_frames 2))) /\
  output_queue (self (snd (run ex_swapaxes clock_300fps ex_picky
                               (map Some (ex_frames 2 ++ ex_frame 3 :: [ex_frame 4])))))
    = output_queue (self (ex_state_after clock_300fps ex_picky (ex_frames 2))) /\
  stdout (snd (run ex_swapaxes clock_300fps ex_picky
                   (map Some (ex_frames 2 ++ ex_frame 3 :: [ex_frame 4]))))
    = ["empty_queue"%string].
Proof.
  apply (processing_exception_stops_the_run ex_swapaxes clock_300fps ex_picky ex_empty_on_3
           (ex_frames 2) (ex_frame 3) [ex_frame 4] Empty
           (ex_state_after clock_300fps ex_picky (ex_frames 2))).
  - reflexivity.
  - simpl. eauto.
  - vm_compute. reflexivity.
  - reflexivity.
Defined.

Lemma run_reaches_end_of_stream_witness :
  exists s',
    iterate ex_swapaxes clock_300fps (ex_frames 25) (enter clock_300fps ex_plain) = Some s' /\
    run ex_swapaxes clock_300fps ex_plain (map Some (ex_frames 25))
      = (EndOfStream, set_stdout ["empty_queue"%string] s').
Proof.
  apply (run_reaches_end_of_stream ex_swapaxes clock_300fps ex_plain (ex_frames 25)).
  - intros f Hf. discriminate Hf.
  - intros k _. unfold clock_300fps.
    replace (Z.of_nat (S k) * 33333 - Z.of_nat k * 33333) with 33333 by lia.
    vm_compute. reflexivity.
Defined.

Lemma unrecognised_keys_are_ignored_witness :
  apply_control (<["binning"%string := PyInt 2]> ex_update_gain) (cam ex_camera)
  = apply_control ex_update_gain (cam ex_camera).
Proof.
  refine (proj1 (unrecognised_keys_are_ignored ex_update_gain "binning" (PyInt 2)
                   (cam ex_camera) _ _)).
  - intros H. discriminate H.
  - intros H. discriminate H.
Defined.

Lemma updates_compose_as_union_witness :
  apply_control ex_update_gain (set_exposure 10 (cam ex_camera))
  = apply_control (ex_update_gain ∪ ex_update_exposure) (cam ex_camera).
Proof.
  refine (proj1 (updates_compose_as_union ex_update_exposure ex_update_gain
                   (cam ex_camera) (set_exposure 10 (cam ex_camera)) _)).
  vm_compute. reflexivity.
Defined.

Lemma pending_updates_drain_one_per_iteration_witness :
  control_queue (snd (camera_loop [ex_idle 1] ex_camera_pending)) =
    Some (drop (length [ex_idle 1]) [ex_update_exposure; ex_update_gain]) /\
  exposure (cam (snd (camera_loop [ex_idle 1] ex_camera_pending))) = 10.
Proof.
  destruct (pending_updates_drain_one_per_iteration [ex_idle 1] ex_camera_pending
              [ex_update_exposure; ex_update_gain] (set_exposure 10 (cam ex_camera_pending))
              eq_refl eq_refl ltac:(repeat constructor) ltac:(vm_compute; reflexivity))
    as (_ & Hq & Hx & _).
  split; [exact Hq | exact Hx].
Defined.

Lemma no_control_queue_no_change_witness :
  exposure (cam (snd (camera_loop [ex_two_updates 1; ex_idle 2] ex_camera_no_control))) =
  exposure (cam ex_camera_no_control).
Proof.
  refine (proj1 (no_control_queue_no_change [ex_two_updates 1; ex_idle 2]
                   ex_camera_no_control eq_refl)).
Defined.

Lemma captured_frames_reach_the_dispatcher_witness :
  calls (snd (run ex_swapaxes clock_300fps ex_attached
                  (map Some (q (snd (camera_loop (map ex_idle (seq 1 12) ++ ex_stop 13 :: [])
                                                 ex_camera))))))
  = map image (map ex_idle (seq 1 12)).
Proof.
  refine (proj1 (proj2 (proj2
    (captured_frames_reach_the_dispatcher ex_swapaxes clock_300fps
       (map ex_idle (seq 1 12)) (ex_stop 13) [] ex_camera ex_attached
       eq_refl eq_refl _ eq_refl _ _ _))) _).
  - repeat constructor.
  - vm_compute. reflexivity.
  - intros f Hf. injection Hf as <-. split; [simpl; eauto |].
    intros x _. eexists. reflexivity.
  - intros k _. unfold clock_300fps.
    replace (Z.of_nat (S k) * 33333 - Z.of_nat k * 33333) with 33333 by lia.
    vm_compute. reflexivity.
  - simpl. eauto.
Defined.

Lemma downsample_bounds_witness :
  exists r,
    MultiScope.downsample 2 [1; 2; 3; 4; 5]%nat = MultiScope.Done r /\
    2 <= Z.of_nat (length r) <= 2 * 2 - 1 /\
    r `sublist_of` [1; 2; 3; 4; 5]%nat /\
    head r = head [1; 2; 3; 4; 5]%nat.
Proof.
  refine (proj2 (downsample_bounds 2 [1; 2; 3; 4; 5]%nat _) _).
  - lia.
  - simpl. lia.
Defined.

Lemma ex_plot_consistent : MultiScope.consistent ex_plot.
Proof.
  unfold MultiScope.consistent. simpl. repeat split; try lia; [constructor |].
  intros k item c H. discriminate H.
Qed.

Lemma add_stream_keeps_plot_consistent_witness :
  map (fun it => MultiScope.text (MultiScope.curve_label it))
      (MultiScope.stream_items (fst (MultiScope.add_stream ex_convert ex_acc None ex_plot)))
  = map (fun it => MultiScope.text (MultiScope.curve_label it))
        (MultiScope.stream_items ex_plot) ++ MultiScope.chosen_headers ex_acc None.
Proof.
  refine (proj1 (proj2 (proj2 (proj2
    (add_stream_keeps_plot_consistent ex_convert ex_acc None ex_plot _ ex_plot_consistent))))).
  repeat constructor.
Defined.

Lemma add_stream_unknown_header_witness :
  snd (MultiScope.add_stream ex_convert ex_acc (Some ["missing"%string]) ex_plot)
  = Some MultiScope.ValueError.
Proof.
  refine (proj1 (add_stream_unknown_header ex_convert ex_acc (Some ["missing"%string])
                   ex_plot "missing" _ _)).
  - constructor.
  - intros H. repeat (apply elem_of_cons in H as [H | H]; [discriminate H |]).
    by apply elem_of_nil in H.
Defined.

Lemma add_stream_default_columns_witness :
  MultiScope.header_indexes (fst (MultiScope.add_stream ex_convert ex_acc_all None ex_plot))
  = MultiScope.header_indexes ex_plot ++ [seq 1 (length (MultiScope.header_list ex_acc_all) - 1)].
Proof.
  refine (proj2 (add_stream_default_columns ex_convert ex_acc_all ex_plot eq_refl _)).
  apply (bool_decide_unpack _). vm_compute. exact I.
Defined.

(** With a grid step of 1.5 the cast to [int32] truncates the rounded
    bounds, and the upper bound 4.2 ends up at 4. *)
Example refresh_after_init_plots_monitored :
  map (fun it => MultiScope.text (MultiScope.curve_label it))
      (MultiScope.stream_items
         (MultiScope.sp (fst (MultiScope.refresh_plots ex_convert
            (MultiScope.StreamPlotConfig_init
               (fst (MultiScope.add_stream ex_convert ex_acc_all None
                       (fst (MultiScope.add_stream ex_convert ex_acc None ex_plot)))))))))
  = ["tail_sum"; "x"; "y"]%string.
Proof. vm_compute. reflexivity. Qed.
